(** * Anonymous chat matchmaking: waiting queue, pairing policy, sessions

    Shallow embedding of the matchmaking core of the anonymous chat bot
    (the module-level dictionaries [chat_partners], [waiting_users],
    [user_data] and the handlers that touch them), followed by the
    properties of the specification that concern it.

    The handlers mutate global containers, send messages and may raise
    [KeyError]; they are written here in a state-and-exception monad over a
    record of those containers.  The SQLite table [users] is a finite map
    of rows, messages are appended to an outbox (sending never fails), and
    user ids are the integers of [message.chat.id].  The iteration order of
    a Python [set] is not fixed by the language, so it is a parameter of
    the model. *)

From stdpp Require Import gmap strings list sorting.

Local Open Scope Z_scope.

(** ** Profiles *)

Definition DEFAULT_SEARCH_GENDER : string := "Любой"%string.
Definition GENDER_BOY : string := "Мальчик"%string.
Definition GENDER_GIRL : string := "Девочка"%string.

(** A row of the SQLite table [users]: [gender TEXT], [premium INTEGER],
    [search_gender TEXT]; the text columns may hold NULL. *)
Record db_row := DbRow {
  row_gender : option string;
  row_premium : Z;
  row_search_gender : option string
}.

(** An entry of the dictionary [user_data]. *)
Record profile := Profile {
  gender : option string;
  premium : bool;
  search_gender : string
}.

(** Truth value of a Python string or [None]. *)
Definition truthy (s : option string) : bool :=
  match s with
  | Some x => bool_decide (x ≠ ""%string)
  | None => false
  end.

(** [s or DEFAULT_SEARCH_GENDER] *)
Definition or_default (s : option string) : string :=
  if truthy s then default DEFAULT_SEARCH_GENDER s else DEFAULT_SEARCH_GENDER.

(** The dictionary literal built in [refresh_user_cache] and
    [load_user_data] from a fetched row. *)
Definition cache_of_row (row : db_row) : profile :=
  {| gender := row_gender row;
     premium := bool_decide (row_premium row ≠ 0);
     search_gender := or_default (row_search_gender row) |}.

(** The row created by [INSERT OR IGNORE INTO users (user_id, search_gender)]. *)
Definition fresh_row : db_row :=
  {| row_gender := None; row_premium := 0;
     row_search_gender := Some DEFAULT_SEARCH_GENDER |}.

(** The [else] branch of [refresh_user_cache]. *)
Definition blank_profile : profile :=
  {| gender := None; premium := false; search_gender := DEFAULT_SEARCH_GENDER |}.

(** ** Compatibility policy *)

Definition _user_preference (user_data : gmap Z profile) (user_id : Z) : string :=
  match user_data !! user_id with
  | Some data =>
      if premium data then or_default (Some (search_gender data))
      else DEFAULT_SEARCH_GENDER
  | None => DEFAULT_SEARCH_GENDER
  end.

Definition _user_gender (user_data : gmap Z profile) (user_id : Z) : option string :=
  match user_data !! user_id with
  | Some data => gender data
  | None => None
  end.

Definition can_users_chat (user_data : gmap Z profile) (user_a user_b : Z) : bool :=
  match _user_gender user_data user_a, _user_gender user_data user_b with
  | Some gender_a, Some gender_b =>
      let pref_a := _user_preference user_data user_a in
      let pref_b := _user_preference user_data user_b in
      if bool_decide (pref_a ≠ DEFAULT_SEARCH_GENDER) && bool_decide (gender_b ≠ pref_a)
      then false
      else if bool_decide (pref_b ≠ DEFAULT_SEARCH_GENDER) && bool_decide (gender_a ≠ pref_b)
      then false
      else true
  | _, _ => false
  end.

(** The preference the specification attributes to a profile: the stored
    [search_gender] for a premium user, "any" otherwise. *)
Definition effective_preference (p : profile) : string :=
  if premium p then search_gender p else DEFAULT_SEARCH_GENDER.

(** ** Global state, messages and exceptions *)

(** The texts passed to [bot.send_message], one constructor per call site
    family. *)
Inductive notice :=
  | SubscriptionNotRequired  (* send_subscription_buttons, gate switched off *)
  | SubscribePrompt          (* send_subscription_buttons *)
  | ChooseGender             (* ask_gender *)
  | MainMenu                 (* show_main_buttons *)
  | SearchingStopButton      (* show_stop_search_button *)
  | PartnerFound             (* send_chat_controls *)
  | AlreadyInQueue           (* begin_search_for_user, early return *)
  | SearchStarted            (* begin_search_for_user *)
  | AddedToQueue             (* begin_search_for_user *)
  | SearchStopped            (* stop_search *)
  | NotSearching             (* stop_search *)
  | YouBrokeLink             (* stop_chat, to the caller *)
  | PartnerBrokeLink         (* stop_chat, to the partner *)
  | NoActiveDialog           (* stop_chat and next_chat without a partner *)
  | LookingForNewPartner     (* next_chat, to the caller *)
  | PartnerStartedNewSearch. (* next_chat, to the partner *)

#[global] Instance notice_eq_dec : EqDecision notice.
Proof. solve_decision. Defined.

Record world := World {
  chat_partners : gmap Z Z;
  waiting_users : gset Z;
  user_data : gmap Z profile;
  users : gmap Z db_row;
  outbox : list (Z * notice)
}.

Definition with_chat_partners (f : gmap Z Z → gmap Z Z) (w : world) : world :=
  {| chat_partners := f (chat_partners w); waiting_users := waiting_users w;
     user_data := user_data w; users := users w; outbox := outbox w |}.

Definition with_waiting_users (f : gset Z → gset Z) (w : world) : world :=
  {| chat_partners := chat_partners w; waiting_users := f (waiting_users w);
     user_data := user_data w; users := users w; outbox := outbox w |}.

Definition with_user_data (f : gmap Z profile → gmap Z profile) (w : world) : world :=
  {| chat_partners := chat_partners w; waiting_users := waiting_users w;
     user_data := f (user_data w); users := users w; outbox := outbox w |}.

Definition with_users (f : gmap Z db_row → gmap Z db_row) (w : world) : world :=
  {| chat_partners := chat_partners w; waiting_users := waiting_users w;
     user_data := user_data w; users := f (users w); outbox := outbox w |}.

Definition with_outbox (f : list (Z * notice) → list (Z * notice)) (w : world) : world :=
  {| chat_partners := chat_partners w; waiting_users := waiting_users w;
     user_data := user_data w; users := users w; outbox := f (outbox w) |}.

Inductive exn := KeyError (key : Z).

Inductive result (A : Type) :=
  | Ok (a : A)
  | Raised (e : exn).
Arguments Ok {A} a.
Arguments Raised {A} e.

(** A handler body: it runs on the globals, leaves them as they are when
    it returns or raises, and yields a value or the exception. *)
Definition M (A : Type) : Type := world → result A * world.

#[global] Instance M_ret : MRet M := λ A a w, (Ok a, w).

#[global] Instance M_bind : MBind M := λ A B k m w,
  match m w with
  | (Ok a, w') => k a w'
  | (Raised e, w') => (Raised e, w')
  end.

Definition get_world : M world := λ w, (Ok w, w).
Definition modify (f : world → world) : M unit := λ w, (Ok tt, f w).
Definition raise {A} (e : exn) : M A := λ w, (Raised e, w).

(** [bot.send_message(chat_id, text)] *)
Definition send_message (chat_id : Z) (text : notice) : M unit :=
  modify (with_outbox (λ o, o ++ [(chat_id, text)])).

(** [waiting_users.add(x)] *)
Definition waiting_add (x : Z) : M unit :=
  modify (with_waiting_users (λ s, s ∪ {[x]})).

(** [waiting_users.remove(x)]: [KeyError] when [x] is not a member. *)
Definition waiting_remove (x : Z) : M unit :=
  w ← get_world;
  if bool_decide (x ∈ waiting_users w)
  then modify (with_waiting_users (λ s, s ∖ {[x]}))
  else raise (KeyError x).

(** [chat_partners[k] = v] *)
Definition partners_set (k v : Z) : M unit :=
  modify (with_chat_partners (insert k v)).

(** [del chat_partners[k]]: [KeyError] when [k] is not a key. *)
Definition partners_del (k : Z) : M unit :=
  w ← get_world;
  match chat_partners w !! k with
  | Some _ => modify (with_chat_partners (delete k))
  | None => raise (KeyError k)
  end.

(** ** Profile cache *)

Definition ensure_user_record (user_id : Z) : M unit :=
  modify (λ w,
    match users w !! user_id with
    | Some _ => w
    | None => with_users (insert user_id fresh_row) w
    end).

Definition refresh_user_cache (user_id : Z) : M unit :=
  modify (λ w,
    match users w !! user_id with
    | Some row => with_user_data (insert user_id (cache_of_row row)) w
    | None => with_user_data (insert user_id blank_profile) w
    end).

Definition ensure_user_loaded (user_id : Z) : M unit :=
  ensure_user_record user_id;;
  w ← get_world;
  match user_data w !! user_id with
  | Some _ => mret tt
  | None => refresh_user_cache user_id
  end.

(** The [UPDATE users SET ...] of [update_user_data]: an argument that is
    [None] leaves its column alone. *)
Definition update_row (gender_arg : option string) (premium_arg : option bool)
    (search_gender_arg : option string) (row : db_row) : db_row :=
  {| row_gender := match gender_arg with Some g => Some g | None => row_gender row end;
     row_premium :=
       match premium_arg with
       | Some b => if b then 1 else 0
       | None => row_premium row
       end;
     row_search_gender :=
       match search_gender_arg with
       | Some s => Some s
       | None => row_search_gender row
       end |}.

Definition update_user_data (user_id : Z) (gender_arg : option string)
    (premium_arg : option bool) (search_gender_arg : option string) : M unit :=
  ensure_user_record user_id;;
  match gender_arg, premium_arg, search_gender_arg with
  | None, None, None => mret tt
  | _, _, _ =>
      modify (with_users (alter (update_row gender_arg premium_arg search_gender_arg) user_id))
  end;;
  refresh_user_cache user_id.

Definition set_search_gender (user_id : Z) (search_gender_arg : string) : M unit :=
  update_user_data user_id None None (Some search_gender_arg).

(** The globals after [ensure_user_loaded]: a user missing from the cache
    gets the profile of its row, which is created first when missing. *)
Definition loaded (user_id : Z) (w : world) : world :=
  match user_data w !! user_id with
  | Some _ =>
      match users w !! user_id with
      | Some _ => w
      | None => with_users (insert user_id fresh_row) w
      end
  | None =>
      match users w !! user_id with
      | Some row => with_user_data (insert user_id (cache_of_row row)) w
      | None =>
          with_user_data (insert user_id (cache_of_row fresh_row))
            (with_users (insert user_id fresh_row) w)
      end
  end.

(** The gender [ensure_user_loaded] leaves in the cache: the cached one,
    else the one of the row, else none. *)
Definition stored_gender (w : world) (user_id : Z) : option string :=
  match user_data w !! user_id with
  | Some data => gender data
  | None =>
      match users w !! user_id with
      | Some row => row_gender row
      | None => None
      end
  end.

(** ** Message helpers *)

Definition ask_gender (user_id : Z) : M unit :=
  send_message user_id ChooseGender.

(** The keyboard differs for administrators, the text does not. *)
Definition show_main_buttons (chat_id : Z) : M unit :=
  send_message chat_id MainMenu.

Definition show_stop_search_button (chat_id : Z) : M unit :=
  send_message chat_id SearchingStopButton.

Definition send_chat_controls (chat_id : Z) : M unit :=
  send_message chat_id PartnerFound.

(** ** Matching *)

(** The body of the [for] loop of [find_partner_for_user], over the
    snapshot [list(waiting_users)]. *)
Fixpoint find_loop (user_id : Z) (snapshot : list Z) : M (option Z) :=
  match snapshot with
  | [] => mret None
  | partner_id :: rest =>
      if bool_decide (partner_id = user_id) then find_loop user_id rest
      else
        w ← get_world;
        if can_users_chat (user_data w) user_id partner_id
        then waiting_remove partner_id;; mret (Some partner_id)
        else find_loop user_id rest
  end.

Definition connect_users (user_id partner_id : Z) : M unit :=
  partners_set user_id partner_id;;
  partners_set partner_id user_id;;
  send_chat_controls user_id;;
  send_chat_controls partner_id.

(** The first member of an iteration that is not the requester and may
    chat with it: what [find_loop] returns, without the removal. *)
Fixpoint first_compatible (user_data : gmap Z profile) (user_id : Z)
    (snapshot : list Z) : option Z :=
  match snapshot with
  | [] => None
  | partner_id :: rest =>
      if bool_decide (partner_id = user_id) then first_compatible user_data user_id rest
      else if can_users_chat user_data user_id partner_id then Some partner_id
      else first_compatible user_data user_id rest
  end.

(** The four commands of the engine, and the handler of each. *)
Inductive command :=
  | BeginSearch (user_id : Z)
  | CancelSearch (user_id : Z)
  | StopSession (user_id : Z)
  | NextSession (user_id : Z).

(** Module initialisation followed by [load_user_data]: empty queue and
    registry, every row of the table cached. *)
Definition startup (table : gmap Z db_row) : world :=
  {| chat_partners := ∅; waiting_users := ∅;
     user_data := cache_of_row <$> table; users := table; outbox := [] |}.

(** ** Globals after the steps of a search

    Closed forms of what the handlers leave behind, used to state their
    effect. *)

(** After the two messages that open a search. *)
Definition announced (user_id : Z) (w : world) : world :=
  with_outbox (λ o, o ++ [(user_id, SearchStarted); (user_id, SearchingStopButton)]) w.

(** After [find_partner_for_user] has taken [partner_id] out of the queue. *)
Definition dequeued (partner_id : Z) (w : world) : world :=
  with_waiting_users (λ s, s ∖ {[partner_id]}) w.

(** After [connect_users]. *)
Definition connected (user_id partner_id : Z) (w : world) : world :=
  with_outbox (λ o, o ++ [(user_id, PartnerFound); (partner_id, PartnerFound)])
    (with_chat_partners (λ m, <[partner_id:=user_id]> (<[user_id:=partner_id]> m)) w).

(** After the [else] branch of [begin_search_for_user]. *)
Definition enqueued (user_id : Z) (w : world) : world :=
  with_outbox (λ o, o ++ [(user_id, AddedToQueue)])
    (with_waiting_users (λ s, s ∪ {[user_id]}) w).

(** After [next_chat] has separated [user_id] from [partner_id] and shown
    the partner the main menu. *)
Definition parted (user_id partner_id : Z) (w : world) : world :=
  with_outbox
    (λ o, o ++ [(user_id, LookingForNewPartner);
                (partner_id, PartnerStartedNewSearch);
                (partner_id, MainMenu)])
    (with_chat_partners (λ m, delete partner_id (delete user_id m)) w).

(** ** Invariants of the specification *)

(** Nobody is in the queue and in the registry at once. *)
Definition exclusive (w : world) : Prop :=
  ∀ u, u ∈ waiting_users w → chat_partners w !! u = None.

(** The partner of one's partner is oneself. *)
Definition symmetric (m : gmap Z Z) : Prop :=
  ∀ u p, m !! u = Some p → m !! p = Some u.

(** Nobody is registered as its own partner. *)
Definition irreflexive (m : gmap Z Z) : Prop :=
  ∀ u, m !! u ≠ Some u.

Definition consistent (w : world) : Prop :=
  exclusive w ∧ symmetric (chat_partners w) ∧ irreflexive (chat_partners w).

(** ** Concrete profiles and iteration orders used in examples *)

Definition boy : db_row := DbRow (Some GENDER_BOY) 0 (Some DEFAULT_SEARCH_GENDER).
Definition girl : db_row := DbRow (Some GENDER_GIRL) 0 (Some DEFAULT_SEARCH_GENDER).
Definition boy_wants_girl : db_row := DbRow (Some GENDER_BOY) 1 (Some GENDER_GIRL).
Definition no_gender : db_row := fresh_row.

(** Three users without preference, as in the first scenario. *)
Definition table_free : gmap Z db_row := <[1:=boy]> (<[2:=girl]> (<[3:=boy]> ∅)).

(** Users 1 and 8 are premium boys looking for girls, so they do not match
    each other; user 2 is a girl. *)
Definition table_picky : gmap Z db_row :=
  <[1:=boy_wants_girl]> (<[8:=boy_wants_girl]> (<[2:=girl]> ∅)).

(** User 1 is a premium boy looking for girls, user 2 a boy. *)
Definition table_change : gmap Z db_row := <[1:=boy_wants_girl]> (<[2:=boy]> ∅).

(** The integer 0 as a user id, next to user 5. *)
Definition table_zero : gmap Z db_row := <[0:=girl]> (<[5:=boy]> ∅).

(** User 5 has not chosen a gender. *)
Definition table_new : gmap Z db_row := <[5:=no_gender]> (<[6:=girl]> ∅).

(** Users 1 and 2 registered as partners, user 3 in the queue. *)
Definition paired_and_waiting : world :=
  {| chat_partners := <[1:=2]> (<[2:=1]> ∅); waiting_users := {[3]};
     user_data := cache_of_row <$> table_free; users := table_free; outbox := [] |}.

(** The gate switched off, and a gate that nobody passes. *)
Definition everyone : Z → bool := λ _, true.
Definition nobody : Z → bool := λ _, false.

(** A CPython set of fewer than five small non-negative integers with
    distinct residues modulo 8 keeps each key [k] in slot [k mod 8] of an
    eight-slot table, and iteration walks the slots upwards: [list(s)]
    after [s.add(1); s.add(8)] is [[8, 1]].  Sorting by slot gives that
    order for such sets, and an enumeration of the members for every set. *)
Definition slot_le (x y : Z) : Prop := x `mod` 8 ≤ y `mod` 8.

#[global] Instance slot_le_dec x y : Decision (slot_le x y) := Z_le_dec _ _.

Definition table8_order (s : gset Z) : list Z := merge_sort slot_le (elements s).

(** ** Further profile operations and their invariants *)

Definition set_user_gender (user_id : Z) (gender_arg : string) : M unit :=
  update_user_data user_id (Some gender_arg) None None.

Definition set_premium_status (user_id : Z) (is_premium : bool) : M unit :=
  update_user_data user_id None (Some is_premium) None.

(** The cache is the image of the table. *)
Definition cache_synced (w : world) : Prop :=
  user_data w = cache_of_row <$> users w.

(** Everybody in the queue or in the registry has a gender. *)
Definition gendered (w : world) : Prop :=
  ∀ u, u ∈ waiting_users w ∨ is_Some (chat_partners w !! u) →
       truthy (_user_gender (user_data w) u) = true.

(** No two users in the queue could chat with each other. *)
Definition pairwise_incompatible (w : world) : Prop :=
  ∀ a b, a ∈ waiting_users w → b ∈ waiting_users w → a ≠ b →
         can_users_chat (user_data w) a b = false.

(** The numbers of the admin statistics: [len(waiting_users)] and
    [len(chat_partners) // 2]. *)
Definition stats_waiting (w : world) : Z := Z.of_nat (size (waiting_users w)).

Definition stats_active_pairs (w : world) : Z :=
  Z.of_nat (size (chat_partners w)) `div` 2.

(** The user who sent a command. *)
Definition caller (c : command) : Z :=
  match c with
  | BeginSearch u | CancelSearch u | StopSession u | NextSession u => u
  end.

(** What happens between two polls: a command, or one of the profile
    updates of the callback handlers ([set_user_gender] with one of the two
    genders, [set_search_gender], [set_premium_status] after a payment). *)
Inductive action :=
  | Command (c : command)
  | GenderChosen (user_id : Z) (boy : bool)
  | PreferenceChosen (user_id : Z) (target : string)
  | PremiumGranted (user_id : Z).

(** The globals after [stop_chat] or [next_chat] has deleted the entry of
    [user_id] and failed on the entry of [partner_id]. *)
Definition half_parted (user_id partner_id : Z) (first second : notice) (w : world) : world :=
  with_outbox (λ o, o ++ [(user_id, first); (partner_id, second)])
    (with_chat_partners (delete user_id) w).

(** The globals after [stop_chat] of a pair. *)
Definition separated (user_id partner_id : Z) (w : world) : world :=
  with_outbox
    (λ o, o ++ [(user_id, YouBrokeLink); (partner_id, PartnerBrokeLink);
                (user_id, MainMenu); (partner_id, MainMenu)])
    (with_chat_partners (λ m, delete partner_id (delete user_id m)) w).

(** ** The handlers around the matching core

    The remaining handlers read the ban flag of the table [users], the
    table [bans] and the dictionary [user_states], and they send further
    texts, copy messages and answer callback queries.  Their state extends
    the globals with these, and with one log of everything the bot emits,
    in order. *)

(** Message texts that the matching core does not use. *)
Inductive reply :=
  | Blocked                         (* start, banned user *)
  | Branding (text : string)        (* send_creator_branding_banner *)
  | Welcome                         (* start: WELCOME_MESSAGE *)
  | Subscribed                      (* callback_query, check_subscription *)
  | GenderSaved (boy : bool)        (* callback_query, gender_boy / gender_girl *)
  | NoPartner                       (* forward_message: main menu with its own prompt *)
  | PremiumOwner                    (* premium_search, premium user *)
  | PremiumOffer                    (* premium_search, other users *)
  | PremiumSettings (preference : string). (* show_premium_settings *)

(** Texts of [bot.answer_callback_query]. *)
Inductive toast :=
  | SubscribedToast
  | NotSubscribedToast
  | GenderToast (boy : bool)
  | NoPremiumToast
  | PremiumOnlyToast
  | PreferenceToast (target : string).

Inductive output :=
  | Sent (chat_id : Z) (n : notice)
  | SentReply (chat_id : Z) (r : reply)
  | Copied (to_chat from_chat message_id : Z)
  | Answered (call_id : Z) (text : option toast).

Record bot := Bot {
  globals : world;
  banned : gmap Z Z;
  bans : gmap Z (string * string);
  user_states : gmap Z string;
  log : list output
}.

Definition with_globals (f : world → world) (s : bot) : bot :=
  {| globals := f (globals s); banned := banned s; bans := bans s;
     user_states := user_states s; log := log s |}.

Definition with_log (f : list output → list output) (s : bot) : bot :=
  {| globals := globals s; banned := banned s; bans := bans s;
     user_states := user_states s; log := f (log s) |}.

Definition B (A : Type) : Type := bot → result A * bot.

#[global] Instance B_ret : MRet B := λ A a s, (Ok a, s).

#[global] Instance B_bind : MBind B := λ A C k m s,
  match m s with
  | (Ok a, s') => k a s'
  | (Raised e, s') => (Raised e, s')
  end.

Definition get_bot : B bot := λ s, (Ok s, s).
Definition modify_bot (f : bot → bot) : B unit := λ s, (Ok tt, f s).
Definition raise_bot {A} (e : exn) : B A := λ s, (Raised e, s).

Definition emit (o : output) : B unit := modify_bot (with_log (λ l, l ++ [o])).

Definition sent_of (cn : Z * notice) : output := Sent cn.1 cn.2.

(** A function of the matching core run from one of these handlers: the
    messages it appends to the outbox are also appended to the log. *)
Definition lift {A} (m : M A) : B A := λ s,
  let '(r, w') := m (globals s) in
  (r, {| globals := w'; banned := banned s; bans := bans s;
         user_states := user_states s;
         log := log s ++ (sent_of <$> drop (length (outbox (globals s))) (outbox w')) |}).

(** [UPDATE users SET banned = 1 WHERE user_id = ?] changes a row that
    exists; [INSERT OR REPLACE INTO bans] always records the ban.  The time
    stamp is read from the clock. *)
Definition ban_user (user_id : Z) (reason created_at : string) : B unit :=
  modify_bot (λ s,
    {| globals := globals s;
       banned := match users (globals s) !! user_id with
                 | Some _ => <[user_id:=1]> (banned s)
                 | None => banned s
                 end;
       bans := <[user_id:=(reason, created_at)]> (bans s);
       user_states := user_states s; log := log s |}).

Definition unban_user (user_id : Z) : B unit :=
  modify_bot (λ s,
    {| globals := globals s;
       banned := match users (globals s) !! user_id with
                 | Some _ => <[user_id:=0]> (banned s)
                 | None => banned s
                 end;
       bans := delete user_id (bans s);
       user_states := user_states s; log := log s |}).

(** [result and result[0] == 1]: no row, no ban; a row created by
    [ensure_user_record] has the default 0. *)
Definition is_banned (user_id : Z) : B bool :=
  s ← get_bot;
  mret (match users (globals s) !! user_id with
        | Some _ => bool_decide (default 0 (banned s !! user_id) = 1)
        | None => false
        end).

(** The ban flags belong to rows. *)
Definition banned_of_rows (s : bot) : Prop :=
  ∀ u, is_Some (banned s !! u) → is_Some (users (globals s) !! u).

(** What the handlers read of an incoming message and of a callback query. *)
Record message := Message {
  chat_id : Z;
  message_id : Z;
  text : option string
}.

Record call := Call {
  call_id : Z;
  from_user_id : Z;
  data : string;
  message_chat_id : Z
}.

(** The handlers that talk to the payment service and the admin panel,
    which [callback_query] calls. *)
Record collaborators := Collaborators {
  handle_admin_callback : call → B bool;
  create_invoice_for_premium : Z → B unit;
  check_payment_status : call → B unit
}.

Definition admin_callbacks : list string :=
  ["broadcast"; "ban_menu"; "ban_add"; "ban_remove"; "ban_list"; "admin_back"; "stats"]%string.

Definition search_gender_targets : list (string * string) :=
  [("search_gender_any", DEFAULT_SEARCH_GENDER);
   ("search_gender_male", GENDER_BOY);
   ("search_gender_female", GENDER_GIRL)]%string.

(** ** Concrete states of the outer handlers used in examples *)

(** The bot over given globals: nobody banned, no admin dialogue, nothing
    emitted yet. *)
Definition bot_of (w : world) : bot :=
  {| globals := w; banned := ∅; bans := ∅; user_states := ∅; log := [] |}.

(** No incoming text is a control command. *)
Definition plain_text (_ : option string) : bool := false.

(** Collaborators that do nothing. *)
Definition idle : collaborators :=
  {| handle_admin_callback := λ _, mret false;
     create_invoice_for_premium := λ _, mret tt;
     check_payment_status := λ _, mret tt |}.

Section Handlers.

(** [SUBSCRIPTION_REQUIRED] is read from the configuration; the answer of
    [bot.get_chat_member] (false when the call raises) is external. *)
Variable SUBSCRIPTION_REQUIRED : bool.
Variable chat_member_ok : Z → bool.

(** [list(waiting_users)]: some enumeration of the members. *)
Variable set_order : gset Z → list Z.
Hypothesis set_order_perm : ∀ s, set_order s ≡ₚ elements s.

Set Default Proof Using "Type".

Definition check_subscription (user_id : Z) : bool :=
  if negb SUBSCRIPTION_REQUIRED then true else chat_member_ok user_id.

Definition send_subscription_buttons (chat_id : Z) : M unit :=
  if negb SUBSCRIPTION_REQUIRED then send_message chat_id SubscriptionNotRequired
  else send_message chat_id SubscribePrompt.

Definition is_user_subscribed (user_id : Z) : M bool :=
  if negb SUBSCRIPTION_REQUIRED then mret true
  else if negb (check_subscription user_id)
  then send_subscription_buttons user_id;; mret false
  else mret true.

Definition find_partner_for_user (user_id : Z) : M (option Z) :=
  w ← get_world;
  if bool_decide (waiting_users w = ∅) then mret None
  else find_loop user_id (set_order (waiting_users w)).

Definition begin_search_for_user (user_id : Z) : M unit :=
  ensure_user_loaded user_id;;
  w ← get_world;
  if bool_decide (user_id ∈ waiting_users w)
  then send_message user_id AlreadyInQueue
  else
    send_message user_id SearchStarted;;
    show_stop_search_button user_id;;
    partner ← find_partner_for_user user_id;
    match partner with
    | Some partner_id =>
        (* [if partner_id:] is false for the integer 0 as well *)
        if bool_decide (partner_id ≠ 0) then connect_users user_id partner_id
        else waiting_add user_id;; send_message user_id AddedToQueue
    | None => waiting_add user_id;; send_message user_id AddedToQueue
    end.

Definition start_search (user_id : Z) : M unit :=
  ensure_user_loaded user_id;;
  subscribed ← is_user_subscribed user_id;
  if negb subscribed then mret tt
  else
    w ← get_world;
    match user_data w !! user_id with
    | None => raise (KeyError user_id)
    | Some data =>
        if negb (truthy (gender data)) then ask_gender user_id
        else begin_search_for_user user_id
    end.

Definition stop_search (user_id : Z) : M unit :=
  w ← get_world;
  (if bool_decide (user_id ∈ waiting_users w)
   then waiting_remove user_id;; send_message user_id SearchStopped
   else send_message user_id NotSearching);;
  show_main_buttons user_id.

Definition stop_chat (user_id : Z) : M unit :=
  w ← get_world;
  match chat_partners w !! user_id with
  | Some partner_id =>
      send_message user_id YouBrokeLink;;
      send_message partner_id PartnerBrokeLink;;
      partners_del user_id;;
      partners_del partner_id;;
      show_main_buttons user_id;;
      show_main_buttons partner_id
  | None =>
      send_message user_id NoActiveDialog;;
      show_main_buttons user_id
  end.

Definition next_chat (user_id : Z) : M unit :=
  ensure_user_loaded user_id;;
  w ← get_world;
  match chat_partners w !! user_id with
  | None => send_message user_id NoActiveDialog
  | Some partner_id =>
      send_message user_id LookingForNewPartner;;
      send_message partner_id PartnerStartedNewSearch;;
      partners_del user_id;;
      partners_del partner_id;;
      show_main_buttons partner_id;;
      w' ← get_world;
      if negb (truthy (_user_gender (user_data w') user_id)) then ask_gender user_id
      else begin_search_for_user user_id
  end.

Definition handle (c : command) : M unit :=
  match c with
  | BeginSearch user_id => start_search user_id
  | CancelSearch user_id => stop_search user_id
  | StopSession user_id => stop_chat user_id
  | NextSession user_id => next_chat user_id
  end.

(** The globals after a handler has returned or raised (the polling loop
    logs the exception and goes on). *)
Definition after (c : command) (w : world) : world := (handle c w).2.

Definition run (cs : list command) (w : world) : world :=
  foldl (λ w c, after c w) w cs.

Inductive reachable (table : gmap Z db_row) : world → Prop :=
  | reachable_startup : reachable table (startup table)
  | reachable_after c w : reachable table w → reachable table (after c w).

(** A search is started only by users without a partner. *)
Definition search_by_unpaired (c : command) (w : world) : Prop :=
  ∀ u, c = BeginSearch u → chat_partners w !! u = None.

(** The states reached when no paired user starts a search. *)
Inductive reachable_unpaired (table : gmap Z db_row) : world → Prop :=
  | reachable_unpaired_startup : reachable_unpaired table (startup table)
  | reachable_unpaired_after c w :
      reachable_unpaired table w → search_by_unpaired c w →
      reachable_unpaired table (after c w).

Definition perform (a : action) (w : world) : world :=
  match a with
  | Command c => after c w
  | GenderChosen user_id boy =>
      (set_user_gender user_id (if boy then GENDER_BOY else GENDER_GIRL) w).2
  | PreferenceChosen user_id target => (set_search_gender user_id target w).2
  | PremiumGranted user_id => (set_premium_status user_id true w).2
  end.

(** The states reached from start-up by commands and profile updates. *)
Inductive reachable_by_actions (table : gmap Z db_row) : world → Prop :=
  | reachable_by_actions_startup : reachable_by_actions table (startup table)
  | reachable_by_actions_perform a w :
      reachable_by_actions table w → reachable_by_actions table (perform a w).

(** The states reached from start-up by commands of users other than 0,
    the profiles staying as they are. *)
Inductive reachable_nonzero (table : gmap Z db_row) : world → Prop :=
  | reachable_nonzero_startup : reachable_nonzero table (startup table)
  | reachable_nonzero_after c w :
      reachable_nonzero table w → caller c ≠ 0 →
      reachable_nonzero table (after c w).

(** The text of [_build_creator_branding_text()], empty without a handle. *)
Variable branding_text : string.

Definition send_creator_branding_banner (chat_id : Z) : B unit :=
  lift (ensure_user_loaded chat_id);;
  s ← get_bot;
  let is_premium :=
    match user_data (globals s) !! chat_id with
    | Some user_info => premium user_info
    | None => false
    end in
  if is_premium then mret tt
  else if bool_decide (branding_text ≠ ""%string)
       then emit (SentReply chat_id (Branding branding_text))
       else mret tt.

Definition start (user_id : Z) : B unit :=
  lift (ensure_user_loaded user_id);;
  is_banned user_id ≫= λ is_ban : bool,
  if is_ban then emit (SentReply user_id Blocked)
  else
    subscribed ← lift (is_user_subscribed user_id);
    if negb subscribed then mret tt
    else
      send_creator_branding_banner user_id;;
      emit (SentReply user_id Welcome);;
      s ← get_bot;
      match user_data (globals s) !! user_id with
      | None => raise_bot (KeyError user_id)
      | Some info =>
          (if negb (truthy (gender info)) then lift (ask_gender user_id) else mret tt);;
          lift (show_main_buttons user_id)
      end.

(** [control] stands for the test of [forward_message] on the text:
    [message_text and is_control_command(message_text)] for
    [message_text = (message.text or "").strip()]. *)
Definition forward_message (control : option string → bool) (m : message) : B unit :=
  let user_id := chat_id m in
  lift (ensure_user_loaded user_id);;
  subscribed ← lift (is_user_subscribed user_id);
  if negb subscribed then mret tt
  else
    s ← get_bot;
    match user_states s !! user_id with
    | Some _ => mret tt
    | None =>
        if control (text m) then mret tt
        else
          match chat_partners (globals s) !! user_id with
          | Some partner_id => emit (Copied partner_id user_id (message_id m))
          | None => emit (SentReply user_id NoPartner)
          end
    end.

Definition premium_search (user_id : Z) : B unit :=
  lift (ensure_user_loaded user_id);;
  subscribed ← lift (is_user_subscribed user_id);
  if negb subscribed then mret tt
  else
    s ← get_bot;
    match user_data (globals s) !! user_id with
    | Some info =>
        if premium info then emit (SentReply user_id PremiumOwner)
        else emit (SentReply user_id PremiumOffer)
    | None => emit (SentReply user_id PremiumOffer)
    end.

Definition show_premium_settings (user_id : Z) : B unit :=
  lift (ensure_user_loaded user_id);;
  s ← get_bot;
  match user_data (globals s) !! user_id with
  | None => raise_bot (KeyError user_id)
  | Some info =>
      emit (SentReply user_id (PremiumSettings (or_default (Some (search_gender info)))))
  end.

Definition callback_query (ext : collaborators) (c : call) : B unit :=
  let user_id := from_user_id c in
  lift (ensure_user_loaded user_id);;
  (if bool_decide (data c ∈ admin_callbacks) then handle_admin_callback ext c
   else mret false) ≫= λ handled : bool,
  if handled then mret tt
  else if bool_decide (data c = "check_subscription"%string) then
    if check_subscription user_id then
      emit (Answered (call_id c) (Some SubscribedToast));;
      emit (SentReply user_id Subscribed);;
      s ← get_bot;
      match user_data (globals s) !! user_id with
      | None => raise_bot (KeyError user_id)
      | Some info =>
          if negb (truthy (gender info)) then lift (ask_gender user_id)
          else lift (show_main_buttons user_id)
      end
    else
      emit (Answered (call_id c) (Some NotSubscribedToast));;
      lift (send_subscription_buttons user_id)
  else if bool_decide (data c = "gender_boy"%string) then
    lift (set_user_gender user_id GENDER_BOY);;
    emit (Answered (call_id c) (Some (GenderToast true)));;
    emit (SentReply user_id (GenderSaved true));;
    lift (show_main_buttons user_id)
  else if bool_decide (data c = "gender_girl"%string) then
    lift (set_user_gender user_id GENDER_GIRL);;
    emit (Answered (call_id c) (Some (GenderToast false)));;
    emit (SentReply user_id (GenderSaved false));;
    lift (show_main_buttons user_id)
  else if bool_decide (data c = "buy_premium"%string) then
    emit (Answered (call_id c) None);;
    create_invoice_for_premium ext (message_chat_id c)
  else if bool_decide (data c = "check_payment"%string) then
    emit (Answered (call_id c) None);;
    check_payment_status ext c
  else if bool_decide (data c = "premium_settings"%string) then
    s ← get_bot;
    match user_data (globals s) !! user_id with
    | None => raise_bot (KeyError user_id)
    | Some info =>
        if premium info then
          show_premium_settings user_id;;
          emit (Answered (call_id c) None)
        else emit (Answered (call_id c) (Some NoPremiumToast))
    end
  else
    match list_to_map (M := gmap string string) search_gender_targets !! data c with
    | None => mret tt
    | Some target =>
        s ← get_bot;
        match user_data (globals s) !! user_id with
        | None => raise_bot (KeyError user_id)
        | Some info =>
            if negb (premium info) then
              emit (Answered (call_id c) (Some PremiumOnlyToast))
            else
              lift (set_search_gender user_id target);;
              emit (Answered (call_id c) (Some (PreferenceToast target)));;
              show_premium_settings user_id
        end
    end.

Ltac case_decides :=
  repeat match goal with
         | |- context [bool_decide ?P] => destruct (bool_decide_reflect P)
         end.

Ltac unfold_ops :=
  cbv [mbind M_bind mret M_ret get_world modify raise send_message
       waiting_add waiting_remove partners_set partners_del
       ask_gender show_main_buttons show_stop_search_button send_chat_controls].

Lemma ensure_user_loaded_run u w :
  ensure_user_loaded u w = (Ok tt, loaded u w).
Proof.
  unfold ensure_user_loaded, loaded, ensure_user_record, refresh_user_cache.
  unfold_ops.
  destruct (users w !! u) as [row|] eqn:Hrow; simpl.
  - destruct (user_data w !! u); [done|]. by rewrite Hrow.
  - destruct (user_data w !! u); [done|]. simpl. by rewrite lookup_insert_eq.
Qed.

(** *** What loading a profile leaves alone *)

Lemma loaded_waiting_users u w : waiting_users (loaded u w) = waiting_users w.
Proof. unfold loaded. by repeat case_match. Qed.

Lemma loaded_chat_partners u w : chat_partners (loaded u w) = chat_partners w.
Proof. unfold loaded. by repeat case_match. Qed.

Lemma loaded_outbox u w : outbox (loaded u w) = outbox w.
Proof. unfold loaded. by repeat case_match. Qed.

Lemma loaded_cached u w : is_Some (user_data (loaded u w) !! u).
Proof.
  unfold loaded. repeat case_match; simpl; eauto; by rewrite lookup_insert_eq.
Qed.

Lemma loaded_gender u w :
  _user_gender (user_data (loaded u w)) u = stored_gender w u.
Proof.
  unfold loaded, stored_gender, _user_gender.
  repeat case_match; simpl in *; simplify_map_eq; done.
Qed.

Lemma loaded_idem u w : loaded u (loaded u w) = loaded u w.
Proof.
  unfold loaded at 1. destruct (loaded_cached u w) as [p ->].
  unfold loaded. repeat case_match; simpl in *; simplify_map_eq; done.
Qed.

(** *** The scan *)

Lemma first_compatible_Some ud u l p :
  first_compatible ud u l = Some p →
  p ≠ u ∧ can_users_chat ud u p = true ∧
  ∃ before rest, l = before ++ p :: rest ∧
    ∀ q, q ∈ before → q = u ∨ can_users_chat ud u q = false.
Proof.
  induction l as [|x l IH]; simpl; [done|].
  case_bool_decide as Hx.
  - intros (? & ? & before & rest & -> & Hb)%IH. split_and!; [done..|].
    exists (x :: before), rest. split; [done|].
    intros q [->|?]%elem_of_cons; auto.
  - destruct (can_users_chat ud u x) eqn:Hc.
    + intros [= <-]. split_and!; [done..|]. exists [], l. split; [done|].
      by intros q ?%elem_of_nil.
    + intros (? & ? & before & rest & -> & Hb)%IH. split_and!; [done..|].
      exists (x :: before), rest. split; [done|].
      intros q [->|?]%elem_of_cons; auto.
Qed.

Lemma first_compatible_None ud u l :
  first_compatible ud u l = None ↔
  ∀ q, q ∈ l → q ≠ u → can_users_chat ud u q = false.
Proof.
  induction l as [|x l IH]; simpl.
  - split; [|done]. by intros _ q ?%elem_of_nil.
  - case_bool_decide as Hx.
    + rewrite IH. split.
      * intros H q [->|?]%elem_of_cons; [done|auto].
      * intros H q ? ?. apply H; [by right|done].
    + destruct (can_users_chat ud u x) eqn:Hc.
      * split; [done|]. intros H. specialize (H x (proj2 (elem_of_cons _ _ _) (or_introl eq_refl)) Hx).
        congruence.
      * rewrite IH. split.
        -- intros H q [->|?]%elem_of_cons; auto.
        -- intros H q ? ?. apply H; [by right|done].
Qed.

Lemma first_compatible_elem ud u l p :
  first_compatible ud u l = Some p → p ∈ l.
Proof.
  intros (_ & _ & before & rest & -> & _)%first_compatible_Some.
  apply elem_of_app. right. apply elem_of_cons. by left.
Qed.

(** The loop returns the first compatible member and removes it; it never
    raises when the snapshot lists members of the queue. *)
Lemma find_loop_run u l w :
  (∀ p, p ∈ l → p ∈ waiting_users w) →
  find_loop u l w =
    match first_compatible (user_data w) u l with
    | Some p => (Ok (Some p), with_waiting_users (λ s, s ∖ {[p]}) w)
    | None => (Ok None, w)
    end.
Proof.
  induction l as [|x l IH]; simpl; intros Hl; [done|].
  case_bool_decide.
  - apply IH. intros p ?. apply Hl. by right.
  - unfold_ops. destruct (can_users_chat (user_data w) u x).
    + rewrite bool_decide_eq_true_2; [done|]. apply Hl. by left.
    + apply IH. intros p ?. apply Hl. by right.
Qed.

Lemma set_order_elem s x : x ∈ set_order s ↔ x ∈ s.
Proof using set_order_perm. by rewrite set_order_perm, elem_of_elements. Qed.

Lemma set_order_empty : set_order ∅ = [].
Proof using set_order_perm.
  apply Permutation_nil_r. by rewrite set_order_perm, elements_empty.
Qed.

Lemma find_partner_for_user_run u w :
  find_partner_for_user u w =
    match first_compatible (user_data w) u (set_order (waiting_users w)) with
    | Some p => (Ok (Some p), with_waiting_users (λ s, s ∖ {[p]}) w)
    | None => (Ok None, w)
    end.
Proof using set_order_perm.
  unfold find_partner_for_user. unfold_ops. case_bool_decide as He.
  - by rewrite He, set_order_empty.
  - apply find_loop_run. intros p. by rewrite set_order_elem.
Qed.

(** *** The policy *)

Lemma or_default_nonempty s : s ≠ ""%string → or_default (Some s) = s.
Proof. intros Hs. unfold or_default, truthy. by rewrite bool_decide_eq_true_2. Qed.

Lemma cache_of_row_search_gender row : search_gender (cache_of_row row) ≠ ""%string.
Proof.
  unfold cache_of_row, or_default, truthy; simpl.
  destruct (row_search_gender row) as [s|]; [|done].
  case_bool_decide; done.
Qed.

Lemma _user_preference_effective (ud : gmap Z profile) u p :
  ud !! u = Some p → search_gender p ≠ ""%string →
  _user_preference ud u = effective_preference p.
Proof.
  intros Hu Hs. unfold _user_preference, effective_preference. rewrite Hu.
  destruct (premium p); [|done]. by apply or_default_nonempty.
Qed.

Lemma can_users_chat_sym (ud : gmap Z profile) a b :
  can_users_chat ud a b = can_users_chat ud b a.
Proof.
  unfold can_users_chat.
  destruct (_user_gender ud a) as [ga|], (_user_gender ud b) as [gb|]; try done.
  simpl. case_decides; simpl; done.
Qed.

(** C6: [can_users_chat] answers false exactly when a gender is missing or
    the effective preference of one side (the stored preference of a
    premium user, "any" otherwise) is not "any" and differs from the
    gender of the other side; the stored preference of a non-premium user
    has no influence; and the answer does not depend on the order of the
    two users.  Profiles are cache entries, whose stored preference is
    never the empty string. *)
Theorem can_users_chat_policy (ud : gmap Z profile) a b pa pb :
  ud !! a = Some pa → ud !! b = Some pb →
  search_gender pa ≠ ""%string → search_gender pb ≠ ""%string →
  (can_users_chat ud a b = false ↔
     gender pa = None ∨ gender pb = None
     ∨ (effective_preference pa ≠ DEFAULT_SEARCH_GENDER
        ∧ gender pb ≠ Some (effective_preference pa))
     ∨ (effective_preference pb ≠ DEFAULT_SEARCH_GENDER
        ∧ gender pa ≠ Some (effective_preference pb)))
  ∧ (premium pa = false → ∀ s,
       can_users_chat
         (<[a := {| gender := gender pa; premium := false; search_gender := s |}]> ud) a b
       = can_users_chat ud a b)
  ∧ can_users_chat ud a b = can_users_chat ud b a.
Proof.
  clear chat_member_ok set_order set_order_perm.
  intros Ha Hb Hsa Hsb. split_and!.
  - unfold can_users_chat, _user_gender.
    rewrite (_user_preference_effective ud a pa), (_user_preference_effective ud b pb)
      by done.
    rewrite Ha, Hb.
    destruct (gender pa) as [ga|]; [|by split; [left|]].
    destruct (gender pb) as [gb|]; [|by split; [right; left|]].
    simpl. case_decides; simpl; intuition congruence.
  - intros Hprem s. unfold can_users_chat, _user_gender, _user_preference.
    destruct (decide (a = b)) as [->|Hne].
    + rewrite lookup_insert_eq, Ha. simpl. by rewrite Hprem.
    + rewrite lookup_insert_eq, lookup_insert_ne, Ha by done. simpl.
      by rewrite Hprem.
  - apply can_users_chat_sym.
Qed.

(** *** Handlers on the paths that change neither queue nor registry *)

Lemma with_outbox_twice f g w :
  with_outbox f (with_outbox g w) = with_outbox (λ o, f (g o)) w.
Proof. done. Qed.

Lemma with_outbox_app2 (a b : Z * notice) w :
  with_outbox (λ o, (o ++ [a]) ++ [b]) w = with_outbox (λ o, o ++ [a; b]) w.
Proof. unfold with_outbox. f_equal. by rewrite <- app_assoc. Qed.

Lemma stop_search_not_waiting w u :
  u ∉ waiting_users w →
  stop_search u w =
    (Ok tt, with_outbox (λ o, o ++ [(u, NotSearching); (u, MainMenu)]) w).
Proof.
  intros Hu. unfold stop_search. unfold_ops.
  rewrite bool_decide_eq_false_2 by done.
  by rewrite with_outbox_twice, with_outbox_app2.
Qed.

Lemma stop_chat_no_partner w u :
  chat_partners w !! u = None →
  stop_chat u w =
    (Ok tt, with_outbox (λ o, o ++ [(u, NoActiveDialog); (u, MainMenu)]) w).
Proof.
  intros Hu. unfold stop_chat. unfold_ops. rewrite Hu.
  by rewrite with_outbox_twice, with_outbox_app2.
Qed.

Lemma next_chat_no_partner w u :
  chat_partners w !! u = None →
  next_chat u w =
    (Ok tt, with_outbox (λ o, o ++ [(u, NoActiveDialog)]) (loaded u w)).
Proof.
  intros Hu. unfold next_chat. unfold_ops.
  rewrite ensure_user_loaded_run, loaded_chat_partners, Hu. done.
Qed.

Lemma is_user_subscribed_run u w :
  is_user_subscribed u w =
    if check_subscription u then (Ok true, w)
    else (Ok false, with_outbox (λ o, o ++ [(u, SubscribePrompt)]) w).
Proof.
  unfold is_user_subscribed, send_subscription_buttons, check_subscription.
  unfold_ops. destruct SUBSCRIPTION_REQUIRED; [|done]. simpl.
  by destruct (chat_member_ok u).
Qed.

Lemma loaded_lookup u w :
  ∃ data, user_data (loaded u w) !! u = Some data ∧ gender data = stored_gender w u.
Proof.
  destruct (loaded_cached u w) as [data Hd]. exists data. split; [done|].
  rewrite <- loaded_gender. unfold _user_gender. by rewrite Hd.
Qed.

Lemma start_search_gender_unset w u :
  truthy (stored_gender w u) = false →
  start_search u w =
    (Ok tt,
     with_outbox
       (λ o, o ++ [(u, if check_subscription u then ChooseGender else SubscribePrompt)])
       (loaded u w)).
Proof.
  intros Hg. unfold start_search. unfold_ops.
  rewrite ensure_user_loaded_run, is_user_subscribed_run.
  destruct (check_subscription u); simpl; [|done].
  destruct (loaded_lookup u w) as (data & -> & Hd). by rewrite Hd, Hg.
Qed.

(** C10: for a user who is not in the waiting queue, [stop_search] returns
    normally, leaves the queue and the registry (and the profile stores)
    as they are, and sends the user the "not searching" notice followed by
    the main menu. *)
Theorem stop_search_when_not_searching w u :
  u ∉ waiting_users w →
  let w' := (stop_search u w).2 in
  (stop_search u w).1 = Ok tt
  ∧ waiting_users w' = waiting_users w
  ∧ chat_partners w' = chat_partners w
  ∧ user_data w' = user_data w
  ∧ outbox w' = outbox w ++ [(u, NotSearching); (u, MainMenu)].
Proof. intros Hu. by rewrite stop_search_not_waiting. Qed.

(** C9: for a user without an entry in [chat_partners], [stop_chat] and
    [next_chat] return normally, leave the queue and the registry as they
    are, and tell the user that there is no active dialog ([stop_chat]
    also shows the main menu). *)
Theorem stop_and_next_without_partner w u :
  chat_partners w !! u = None →
  let ws := (stop_chat u w).2 in
  let wn := (next_chat u w).2 in
  ((stop_chat u w).1 = Ok tt
   ∧ waiting_users ws = waiting_users w
   ∧ chat_partners ws = chat_partners w
   ∧ outbox ws = outbox w ++ [(u, NoActiveDialog); (u, MainMenu)])
  ∧ ((next_chat u w).1 = Ok tt
     ∧ waiting_users wn = waiting_users w
     ∧ chat_partners wn = chat_partners w
     ∧ outbox wn = outbox w ++ [(u, NoActiveDialog)]).
Proof.
  intros Hu. rewrite stop_chat_no_partner, next_chat_no_partner by done. simpl.
  by rewrite loaded_waiting_users, loaded_chat_partners, loaded_outbox.
Qed.

(** C7 as amended: [start_search] for a user whose gender is unset (missing
    or empty once the profile is loaded) returns normally and changes
    neither the queue nor the registry; the single message it sends is the
    gender prompt when the subscription gate is passed, and the
    subscription prompt when it is not. *)
Theorem start_search_without_gender w u :
  truthy (stored_gender w u) = false →
  let w' := (start_search u w).2 in
  (start_search u w).1 = Ok tt
  ∧ waiting_users w' = waiting_users w
  ∧ chat_partners w' = chat_partners w
  ∧ outbox w' =
      outbox w ++ [(u, if check_subscription u then ChooseGender else SubscribePrompt)].
Proof.
  intros Hg. rewrite start_search_gender_unset by done. simpl.
  by rewrite loaded_waiting_users, loaded_chat_partners, loaded_outbox.
Qed.

(** *** The scan of the queue *)

(** C3 as amended: [find_partner_for_user] never raises; when it returns
    a candidate, that candidate was in the queue and is removed from it,
    everything else staying as it was; when it returns [None] nothing
    changes. *)
Theorem find_partner_for_user_queue_effect w u :
  let r := find_partner_for_user u w in
  (r.1 = Ok None ∧ r.2 = w)
  ∨ (∃ p, r.1 = Ok (Some p)
        ∧ p ∈ waiting_users w
        ∧ waiting_users r.2 = waiting_users w ∖ {[p]}
        ∧ r.2 = with_waiting_users (λ s, s ∖ {[p]}) w).
Proof using set_order_perm.
  simpl. rewrite find_partner_for_user_run.
  destruct (first_compatible _ _ _) as [p|] eqn:Hc; [right|by left].
  exists p. split_and!; try done.
  apply set_order_elem. by eapply first_compatible_elem.
Qed.

(** C5 as amended: the scan walks the members in the iteration order of
    the set and returns the first one that is not the requester and may
    chat with it; it returns [None] exactly when no other member is
    compatible, in particular on the empty queue; it never returns the
    requester. *)
Theorem find_partner_for_user_first_in_iteration w x :
  let r := (find_partner_for_user x w).1 in
  r = Ok (first_compatible (user_data w) x (set_order (waiting_users w)))
  ∧ (∀ p, r = Ok (Some p) →
       p ∈ waiting_users w ∧ p ≠ x ∧ can_users_chat (user_data w) x p = true
       ∧ ∃ before rest, set_order (waiting_users w) = before ++ p :: rest
           ∧ ∀ q, q ∈ before → q = x ∨ can_users_chat (user_data w) x q = false)
  ∧ (r = Ok None ↔
       ∀ q, q ∈ waiting_users w → q ≠ x → can_users_chat (user_data w) x q = false)
  ∧ (waiting_users w = ∅ → r = Ok None)
  ∧ r ≠ Ok (Some x).
Proof using set_order_perm.
  simpl.
  assert ((find_partner_for_user x w).1 =
          Ok (first_compatible (user_data w) x (set_order (waiting_users w)))) as ->.
  { rewrite find_partner_for_user_run. by destruct (first_compatible _ _ _). }
  split_and!.
  - done.
  - intros p [= Hp]. pose proof (first_compatible_Some _ _ _ _ Hp) as (? & ? & ?).
    split_and!; try done. apply set_order_elem. by eapply first_compatible_elem.
  - split.
    + intros [= Hn] q Hq. rewrite first_compatible_None in Hn.
      apply Hn. by apply set_order_elem.
    + intros Hn. f_equal. apply first_compatible_None.
      intros q Hq. apply Hn. by apply set_order_elem.
  - intros ->. by rewrite set_order_empty.
  - intros [= Hx]. by apply first_compatible_Some in Hx as [? _].
Qed.

(** *** The matching attempt *)

Ltac world_eq :=
  unfold announced, dequeued, connected, enqueued, parted,
    with_outbox, with_chat_partners, with_waiting_users; simpl;
  rewrite <- ?app_assoc; reflexivity.

Lemma begin_search_for_user_run u w :
  begin_search_for_user u w =
    (Ok tt,
     if bool_decide (u ∈ waiting_users w)
     then with_outbox (λ o, o ++ [(u, AlreadyInQueue)]) (loaded u w)
     else
       match first_compatible (user_data (loaded u w)) u (set_order (waiting_users w)) with
       | Some p =>
           if bool_decide (p ≠ 0)
           then connected u p (dequeued p (announced u (loaded u w)))
           else enqueued u (dequeued p (announced u (loaded u w)))
       | None => enqueued u (announced u (loaded u w))
       end).
Proof using set_order_perm.
  unfold begin_search_for_user, connect_users. unfold_ops.
  rewrite ensure_user_loaded_run, loaded_waiting_users.
  case_bool_decide as Hu; [done|].
  rewrite find_partner_for_user_run. simpl. rewrite loaded_waiting_users.
  destruct (first_compatible _ _ _) as [p|] eqn:Hc.
  - case_bool_decide; world_eq.
  - world_eq.
Qed.

Lemma loaded_fixed u w :
  is_Some (user_data w !! u) → is_Some (users w !! u) → loaded u w = w.
Proof. intros [? Hd] [? Hr]. unfold loaded. by rewrite Hd, Hr. Qed.

Lemma loaded_row u w : is_Some (users (loaded u w) !! u).
Proof.
  unfold loaded. repeat case_match; simpl; eauto; by rewrite lookup_insert_eq.
Qed.

Lemma begin_search_for_user_loaded u w :
  begin_search_for_user u (loaded u w) = begin_search_for_user u w.
Proof using set_order_perm.
  by rewrite !begin_search_for_user_run, loaded_idem, loaded_waiting_users.
Qed.

Lemma start_search_gender_set w u :
  check_subscription u = true → truthy (stored_gender w u) = true →
  start_search u w = begin_search_for_user u w.
Proof using set_order_perm.
  intros Hs Hg. unfold start_search. unfold_ops.
  rewrite ensure_user_loaded_run, is_user_subscribed_run, Hs. simpl.
  destruct (loaded_lookup u w) as (data & -> & Hd). rewrite Hd, Hg. simpl.
  apply begin_search_for_user_loaded.
Qed.

(** What a matching attempt by a user outside the queue does, by the
    outcome of the scan. *)
Lemma begin_search_for_user_outcome u w :
  u ∉ waiting_users w →
  let cand := first_compatible (user_data (loaded u w)) u (set_order (waiting_users w)) in
  let w' := (begin_search_for_user u w).2 in
  (∀ p, cand = Some p → p ≠ 0 →
     p ∈ waiting_users w ∧ p ≠ u
     ∧ can_users_chat (user_data (loaded u w)) u p = true
     ∧ waiting_users w' = waiting_users w ∖ {[p]}
     ∧ chat_partners w' = <[p:=u]> (<[u:=p]> (chat_partners w))
     ∧ u ∉ waiting_users w')
  ∧ (cand = None →
     waiting_users w' = waiting_users w ∪ {[u]}
     ∧ chat_partners w' = chat_partners w).
Proof using set_order_perm.
  intros Hu. simpl. rewrite begin_search_for_user_run.
  rewrite bool_decide_eq_false_2 by done. split.
  - intros p Hp Hp0. rewrite Hp, bool_decide_eq_true_2 by done. simpl.
    rewrite loaded_waiting_users, loaded_chat_partners.
    pose proof (first_compatible_Some _ _ _ _ Hp) as (? & ? & _).
    split_and!; try done.
    + apply set_order_elem. by eapply first_compatible_elem.
    + by intros [? _]%elem_of_difference.
  - intros ->. simpl. by rewrite loaded_waiting_users, loaded_chat_partners.
Qed.

(** C4: [begin_search_for_user] returns normally.  For a requester outside
    the queue, when the scan finds a candidate [p] (a user id, hence not
    the integer 0), [p] was a compatible member of the queue, is removed
    from it, the registry gains [u -> p] and [p -> u], and [u] is not added
    to the queue; a candidate is found whenever some other member is
    compatible; when no other member is compatible, [u] is added to the
    queue and the registry is unchanged.  For a requester who is already
    searching nothing is scanned: the requester stays in the queue and the
    registry is unchanged.  With a gender set and the subscription gate
    passed, [start_search] is that call. *)
Theorem begin_search_for_user_effect w u :
  let cand := first_compatible (user_data (loaded u w)) u (set_order (waiting_users w)) in
  let w' := (begin_search_for_user u w).2 in
  (begin_search_for_user u w).1 = Ok tt
  ∧ (u ∉ waiting_users w →
      (∀ p, cand = Some p → p ≠ 0 →
         p ∈ waiting_users w ∧ p ≠ u
         ∧ can_users_chat (user_data (loaded u w)) u p = true
         ∧ waiting_users w' = waiting_users w ∖ {[p]}
         ∧ chat_partners w' = <[p:=u]> (<[u:=p]> (chat_partners w))
         ∧ u ∉ waiting_users w')
      ∧ ((∃ q, q ∈ waiting_users w ∧ q ≠ u
               ∧ can_users_chat (user_data (loaded u w)) u q = true) →
         ∃ p, cand = Some p)
      ∧ ((∀ q, q ∈ waiting_users w → q ≠ u →
             can_users_chat (user_data (loaded u w)) u q = false) →
         cand = None
         ∧ waiting_users w' = waiting_users w ∪ {[u]}
         ∧ chat_partners w' = chat_partners w))
  ∧ (u ∈ waiting_users w →
      waiting_users w' = waiting_users w
      ∧ chat_partners w' = chat_partners w
      ∧ outbox w' = outbox w ++ [(u, AlreadyInQueue)])
  ∧ (check_subscription u = true → truthy (stored_gender w u) = true →
      start_search u w = begin_search_for_user u w).
Proof using set_order_perm.
  simpl. split_and!.
  - by rewrite begin_search_for_user_run.
  - intros Hu. destruct (begin_search_for_user_outcome u w Hu) as [Hs Hn].
    split; [done|]. split.
    { intros (q & Hq & Hqu & Hc).
      destruct (first_compatible (user_data (loaded u w)) u
                  (set_order (waiting_users w))) as [p|] eqn:Hp; [by exists p|].
      rewrite first_compatible_None in Hp.
      rewrite (Hp q) in Hc; [done|by apply set_order_elem|done]. }
    intros Hq.
    assert (first_compatible (user_data (loaded u w)) u
              (set_order (waiting_users w)) = None) as Hc.
    { apply first_compatible_None. intros q ?%set_order_elem. by apply Hq. }
    split; [done|]. by apply Hn.
  - intros Hu. rewrite begin_search_for_user_run, bool_decide_eq_true_2 by done.
    simpl. by rewrite loaded_waiting_users, loaded_chat_partners, loaded_outbox.
  - apply start_search_gender_set.
Qed.

(** *** Asking for the next partner *)

Lemma next_chat_paired_run w f g :
  chat_partners w !! f = Some g → is_Some (chat_partners w !! g) → f ≠ g →
  next_chat f w =
    if truthy (stored_gender w f)
    then begin_search_for_user f (parted f g (loaded f w))
    else ask_gender f (parted f g (loaded f w)).
Proof.
  intros Hf [h Hg] Hne. unfold next_chat. unfold_ops.
  rewrite ensure_user_loaded_run, loaded_chat_partners, Hf. simpl.
  rewrite loaded_chat_partners, Hf. simpl.
  rewrite lookup_delete_ne, loaded_chat_partners, Hg by done. simpl.
  rewrite loaded_gender.
  match goal with
  | |- _ ?mid = _ => replace mid with (parted f g (loaded f w)) by world_eq
  end.
  by destruct (truthy (stored_gender w f)).
Qed.

Lemma parted_loaded f g w :
  loaded f (parted f g (loaded f w)) = parted f g (loaded f w).
Proof.
  apply loaded_fixed; simpl; [apply loaded_cached|apply loaded_row].
Qed.

Lemma begin_search_for_user_waiting u w v :
  v ∈ waiting_users (begin_search_for_user u w).2 → v = u ∨ v ∈ waiting_users w.
Proof using set_order_perm.
  clear chat_member_ok.
  rewrite begin_search_for_user_run. simpl.
  case_bool_decide; [simpl; rewrite loaded_waiting_users; auto|].
  destruct (first_compatible _ _ _) as [p|]; [case_bool_decide|]; simpl;
    rewrite loaded_waiting_users; set_unfold; tauto.
Qed.

Lemma begin_search_for_user_partner_of_other u w v :
  v ≠ u → v ∉ waiting_users w →
  chat_partners (begin_search_for_user u w).2 !! v = chat_partners w !! v.
Proof using set_order_perm.
  intros Hv Hvw. rewrite begin_search_for_user_run. simpl.
  case_bool_decide; [simpl; by rewrite loaded_chat_partners|].
  destruct (first_compatible _ _ _) as [p|] eqn:Hp; simpl.
  - assert (p ≠ v).
    { intros ->. apply first_compatible_elem, set_order_elem in Hp. done. }
    case_bool_decide; simpl; rewrite loaded_chat_partners; [|done].
    by rewrite !lookup_insert_ne.
  - by rewrite loaded_chat_partners.
Qed.

(** A couple whose partner is not searching: when [f] and [g] are each
    other's partner and [g] is not in the queue, [next_chat f] first
    removes both registry entries and tells [g], who gets the main menu
    and is not put in the queue;
    then, if the gender of [f] is set, [f] runs [begin_search_for_user]
    from that state, and otherwise [f] is only asked for a gender.  After
    the handler [g] has no partner and is not in the queue; [f], when its
    gender is set and it was not in the queue, ends up paired with the
    candidate of the scan (other than the integer 0) or in the queue. *)
Theorem next_chat_of_paired_couple w f g :
  chat_partners w !! f = Some g → chat_partners w !! g = Some f → f ≠ g →
  g ∉ waiting_users w →
  let mid := parted f g (loaded f w) in
  let cand := first_compatible (user_data mid) f (set_order (waiting_users w)) in
  let w' := (next_chat f w).2 in
  (chat_partners mid !! f = None ∧ chat_partners mid !! g = None
   ∧ waiting_users mid = waiting_users w
   ∧ outbox mid = outbox w ++ [(f, LookingForNewPartner);
                               (g, PartnerStartedNewSearch); (g, MainMenu)])
  ∧ next_chat f w =
      (if truthy (stored_gender w f) then begin_search_for_user f mid
       else ask_gender f mid)
  ∧ (next_chat f w).1 = Ok tt
  ∧ (chat_partners w' !! g = None ∧ g ∉ waiting_users w')
  ∧ (truthy (stored_gender w f) = true → f ∉ waiting_users w →
      (∀ p, cand = Some p → p ≠ 0 →
         chat_partners w' !! f = Some p ∧ chat_partners w' !! p = Some f
         ∧ (f ∉ waiting_users w') ∧ (p ∉ waiting_users w'))
      ∧ (cand = None → f ∈ waiting_users w' ∧ chat_partners w' !! f = None))
  ∧ (truthy (stored_gender w f) = false →
      w' = with_outbox (λ o, o ++ [(f, ChooseGender)]) mid).
Proof using set_order_perm.
  clear chat_member_ok.
  intros Hf Hg Hne Hgw. simpl.
  assert (chat_partners (parted f g (loaded f w)) !! f = None) as Hmf.
  { simpl. rewrite lookup_delete_ne by done. apply lookup_delete_eq. }
  assert (chat_partners (parted f g (loaded f w)) !! g = None) as Hmg.
  { simpl. apply lookup_delete_eq. }
  assert (waiting_users (parted f g (loaded f w)) = waiting_users w) as Hmw.
  { simpl. apply loaded_waiting_users. }
  rewrite (next_chat_paired_run w f g) by eauto.
  split_and!; try done.
  - simpl. by rewrite loaded_outbox.
  - destruct (truthy _); [|done]. by rewrite begin_search_for_user_run.
  - destruct (truthy _); [|done].
    rewrite begin_search_for_user_partner_of_other; [done|done|by rewrite Hmw].
  - destruct (truthy _).
    2:{ change (g ∉ waiting_users (parted f g (loaded f w))). by rewrite Hmw. }
    intros [?|?]%begin_search_for_user_waiting; [done|]. by rewrite Hmw in *.
  - intros -> Hfw.
    assert (f ∉ waiting_users (parted f g (loaded f w))) as Hfm by by rewrite Hmw.
    destruct (begin_search_for_user_outcome f _ Hfm) as [Hs Hn].
    rewrite parted_loaded, Hmw in Hs, Hn. split.
    + intros p Hp Hp0. destruct (Hs p Hp Hp0) as (? & ? & ? & Hw' & Hc' & ?).
      rewrite Hc', Hw'. rewrite lookup_insert_ne, lookup_insert_eq by done.
      rewrite lookup_insert_eq. split_and!; try done.
      all: rewrite elem_of_difference, elem_of_singleton; tauto.
    + intros Hc. destruct (Hn Hc) as [Hw' Hc']. rewrite Hw', Hc'.
      split; [|done]. apply elem_of_union_r. by apply elem_of_singleton.
  - by intros ->.
Qed.

(** *** Consistency of queue and registry *)

Lemma consistent_frame w w' :
  (∀ u, u ∈ waiting_users w' → u ∈ waiting_users w) →
  chat_partners w' = chat_partners w →
  consistent w → consistent w'.
Proof.
  intros Hw Hc (He & Hs & Hi). unfold consistent, exclusive. rewrite Hc.
  split_and!; [|done..]. intros u Hu. apply He, Hw, Hu.
Qed.

Lemma consistent_enqueue w w' u :
  (∀ v, v ∈ waiting_users w' → v = u ∨ v ∈ waiting_users w) →
  chat_partners w' = chat_partners w →
  chat_partners w !! u = None →
  consistent w → consistent w'.
Proof.
  intros Hw Hc Hu (He & Hs & Hi). unfold consistent, exclusive. rewrite Hc.
  split_and!; [|done..]. intros v [->|Hv]%Hw; [done|]. by apply He.
Qed.

Lemma consistent_disconnect w w' u p :
  chat_partners w !! u = Some p →
  waiting_users w' = waiting_users w →
  chat_partners w' = delete p (delete u (chat_partners w)) →
  consistent w → consistent w'.
Proof.
  intros Hu Hw Hc (He & Hs & Hi). unfold consistent, exclusive. rewrite Hc, Hw.
  split_and!.
  - intros v Hv. rewrite !lookup_delete_None. right. right. by apply He.
  - intros v q. rewrite !lookup_delete_Some.
    intros (Hvp & Hvu & Hv). pose proof (Hs _ _ Hv) as Hq.
    split_and!; [| |done].
    + intros ->. pose proof (Hs _ _ Hu). congruence.
    + intros ->. congruence.
  - intros v. rewrite !lookup_delete_Some. intros (_ & _ & Hv). by apply (Hi v).
Qed.

Lemma consistent_connect w w' u p :
  chat_partners w !! u = None → chat_partners w !! p = None → p ≠ u →
  u ∉ waiting_users w →
  (∀ v, v ∈ waiting_users w' → v ∈ waiting_users w ∧ v ≠ p) →
  chat_partners w' = <[p:=u]> (<[u:=p]> (chat_partners w)) →
  consistent w → consistent w'.
Proof.
  intros Hu Hp Hne Huw Hw Hc (He & Hs & Hi). unfold consistent, exclusive.
  rewrite Hc. split_and!.
  - intros v [Hv Hvp]%Hw. rewrite !lookup_insert_ne; [by apply He|congruence..].
  - intros v q. destruct (decide (v = p)) as [->|Hvp].
    + rewrite lookup_insert_eq. intros [= <-].
      by rewrite lookup_insert_ne, lookup_insert_eq.
    + rewrite lookup_insert_ne by done. destruct (decide (v = u)) as [->|Hvu].
      * rewrite lookup_insert_eq. intros [= <-]. by rewrite lookup_insert_eq.
      * rewrite lookup_insert_ne by done. intros Hv. pose proof (Hs _ _ Hv) as Hq.
        rewrite !lookup_insert_ne; [done|congruence..].
  - intros v. destruct (decide (v = p)) as [->|Hvp].
    + rewrite lookup_insert_eq. congruence.
    + rewrite lookup_insert_ne by done. destruct (decide (v = u)) as [->|Hvu].
      * rewrite lookup_insert_eq. congruence.
      * rewrite lookup_insert_ne by done. apply Hi.
Qed.

Lemma startup_consistent table : consistent (startup table).
Proof.
  split_and!.
  - intros u Hu. by apply not_elem_of_empty in Hu.
  - intros u p Hu. simpl in Hu. by rewrite lookup_empty in Hu.
  - intros u Hu. simpl in Hu. by rewrite lookup_empty in Hu.
Qed.

Lemma stop_search_consistent w u : consistent w → consistent (stop_search u w).2.
Proof.
  unfold stop_search. unfold_ops. case_bool_decide as Hu.
  - rewrite bool_decide_eq_true_2 by done. simpl.
    apply consistent_frame; [|done]. simpl. by intros v [? _]%elem_of_difference.
  - by apply consistent_frame.
Qed.

Lemma stop_chat_consistent w u : consistent w → consistent (stop_chat u w).2.
Proof.
  intros Hw. unfold stop_chat. unfold_ops.
  destruct (chat_partners w !! u) as [p|] eqn:Hu; simpl.
  - destruct Hw as (He & Hs & Hi). pose proof (Hs _ _ Hu) as Hp.
    assert (p ≠ u) by (intros ->; by apply (Hi u)).
    rewrite Hu. simpl. rewrite lookup_delete_ne, Hp by done. simpl.
    by apply (consistent_disconnect w _ u p).
  - by apply (consistent_frame w).
Qed.

Lemma begin_search_for_user_consistent w u :
  consistent w → chat_partners w !! u = None →
  consistent (begin_search_for_user u w).2.
Proof using set_order_perm.
  intros Hw Hu. rewrite begin_search_for_user_run. simpl.
  case_bool_decide as Huw.
  { apply (consistent_frame w); simpl;
      [by rewrite loaded_waiting_users|by rewrite loaded_chat_partners|done]. }
  destruct (first_compatible _ _ _) as [p|] eqn:Hp.
  - pose proof (first_compatible_Some _ _ _ _ Hp) as (Hpu & _ & _).
    apply first_compatible_elem, set_order_elem in Hp.
    case_bool_decide.
    + apply (consistent_connect w _ u p); simpl;
        rewrite ?loaded_waiting_users, ?loaded_chat_partners; try done.
      * by apply Hw.
      * intros v [? Hv]%elem_of_difference. split; [done|].
        intros ->. apply Hv. by apply elem_of_singleton.
    + apply (consistent_enqueue w _ u); simpl;
        rewrite ?loaded_waiting_users, ?loaded_chat_partners; try done.
      intros v [[? _]%elem_of_difference| ->%elem_of_singleton]%elem_of_union; auto.
  - apply (consistent_enqueue w _ u); simpl;
      rewrite ?loaded_waiting_users, ?loaded_chat_partners; try done.
    intros v [?| ->%elem_of_singleton]%elem_of_union; auto.
Qed.

Lemma start_search_consistent w u :
  consistent w → chat_partners w !! u = None → consistent (start_search u w).2.
Proof using set_order_perm.
  intros Hw Hu. unfold start_search. unfold_ops.
  rewrite ensure_user_loaded_run, is_user_subscribed_run.
  assert (consistent (loaded u w)) as Hl.
  { apply (consistent_frame w);
      [by rewrite loaded_waiting_users|by rewrite loaded_chat_partners|done]. }
  destruct (check_subscription u); simpl; [|by apply (consistent_frame (loaded u w))].
  destruct (loaded_lookup u w) as (data & -> & _).
  destruct (truthy (gender data)); simpl.
  - apply begin_search_for_user_consistent; [done|]. by rewrite loaded_chat_partners.
  - by apply (consistent_frame (loaded u w)).
Qed.

Lemma next_chat_consistent w u : consistent w → consistent (next_chat u w).2.
Proof using set_order_perm.
  intros Hw.
  assert (consistent (loaded u w)) as Hl.
  { apply (consistent_frame w);
      [by rewrite loaded_waiting_users|by rewrite loaded_chat_partners|done]. }
  destruct (chat_partners w !! u) as [p|] eqn:Hu.
  - destruct Hw as (He & Hs & Hi). pose proof (Hs _ _ Hu) as Hp.
    assert (u ≠ p) by (intros ->; by apply (Hi p)).
    rewrite (next_chat_paired_run w u p) by eauto.
    assert (consistent (parted u p (loaded u w))) as Hm.
    { apply (consistent_disconnect (loaded u w) _ u p); try done.
      by rewrite loaded_chat_partners. }
    destruct (truthy _).
    + apply begin_search_for_user_consistent; [done|]. simpl.
      rewrite lookup_delete_ne by done. apply lookup_delete_eq.
    + by apply (consistent_frame (parted u p (loaded u w))).
  - rewrite next_chat_no_partner by done. by apply (consistent_frame (loaded u w)).
Qed.

(** Every command keeps queue and registry consistent, provided that a
    search is not started by a user who has a partner. *)
Lemma after_consistent c w :
  consistent w → search_by_unpaired c w → consistent (after c w).
Proof using set_order_perm.
  intros Hw Hc. destruct c as [u|u|u|u]; unfold after, handle.
  - apply start_search_consistent; [done|]. by apply Hc.
  - by apply stop_search_consistent.
  - by apply stop_chat_consistent.
  - by apply next_chat_consistent.
Qed.

Lemma reachable_unpaired_consistent table w :
  reachable_unpaired table w → consistent w.
Proof using set_order_perm.
  induction 1 as [|c w _ IH Hc]; [apply startup_consistent|].
  by apply after_consistent.
Qed.

(** *** Closed forms of the handlers on every path *)

Lemma stop_search_run u w :
  stop_search u w =
    (Ok tt,
     if bool_decide (u ∈ waiting_users w)
     then with_outbox (λ o, o ++ [(u, SearchStopped); (u, MainMenu)]) (dequeued u w)
     else with_outbox (λ o, o ++ [(u, NotSearching); (u, MainMenu)]) w).
Proof.
  unfold stop_search. unfold_ops. case_bool_decide as Hu.
  - rewrite bool_decide_eq_true_2 by done. world_eq.
  - world_eq.
Qed.

Lemma stop_chat_run u w :
  stop_chat u w =
    match chat_partners w !! u with
    | None => (Ok tt, with_outbox (λ o, o ++ [(u, NoActiveDialog); (u, MainMenu)]) w)
    | Some p =>
        if bool_decide (p ≠ u ∧ is_Some (chat_partners w !! p))
        then (Ok tt, separated u p w)
        else (Raised (KeyError p), half_parted u p YouBrokeLink PartnerBrokeLink w)
    end.
Proof.
  destruct (chat_partners w !! u) as [p|] eqn:Hu; [|by apply stop_chat_no_partner].
  unfold stop_chat. unfold_ops. rewrite Hu. simpl. rewrite Hu. simpl.
  rewrite lookup_delete. case_decide as Hpu.
  - subst p. rewrite bool_decide_eq_false_2 by (by intros [? _]).
    unfold half_parted, with_outbox, with_chat_partners. simpl.
    by rewrite <- app_assoc.
  - destruct (chat_partners w !! p) as [q|] eqn:Hp; simpl.
    + rewrite bool_decide_eq_true_2 by (split; [congruence|eauto]).
      unfold separated, with_outbox, with_chat_partners. simpl.
      by rewrite <- !app_assoc.
    + rewrite bool_decide_eq_false_2 by (by intros [_ [? ?]]).
      unfold half_parted, with_outbox, with_chat_partners. simpl.
      by rewrite <- app_assoc.
Qed.

Lemma start_search_run u w :
  start_search u w =
    if check_subscription u
    then if truthy (stored_gender w u) then begin_search_for_user u w
         else (Ok tt, with_outbox (λ o, o ++ [(u, ChooseGender)]) (loaded u w))
    else (Ok tt, with_outbox (λ o, o ++ [(u, SubscribePrompt)]) (loaded u w)).
Proof using set_order_perm.
  destruct (check_subscription u) eqn:Hs, (truthy (stored_gender w u)) eqn:Hg.
  - by apply start_search_gender_set.
  - by rewrite start_search_gender_unset, Hs.
  - unfold start_search. unfold_ops.
    by rewrite ensure_user_loaded_run, is_user_subscribed_run, Hs.
  - by rewrite start_search_gender_unset, Hs.
Qed.

Lemma next_chat_run u w :
  next_chat u w =
    match chat_partners w !! u with
    | None => (Ok tt, with_outbox (λ o, o ++ [(u, NoActiveDialog)]) (loaded u w))
    | Some p =>
        if bool_decide (p ≠ u ∧ is_Some (chat_partners w !! p))
        then if truthy (stored_gender w u)
             then begin_search_for_user u (parted u p (loaded u w))
             else ask_gender u (parted u p (loaded u w))
        else (Raised (KeyError p),
              half_parted u p LookingForNewPartner PartnerStartedNewSearch (loaded u w))
    end.
Proof.
  destruct (chat_partners w !! u) as [p|] eqn:Hu; [|by apply next_chat_no_partner].
  case_bool_decide as Hp.
  - destruct Hp as [Hpu Hp]. by apply next_chat_paired_run.
  - unfold next_chat. unfold_ops.
    rewrite ensure_user_loaded_run, loaded_chat_partners, Hu. simpl.
    rewrite loaded_chat_partners, Hu. simpl.
    rewrite lookup_delete, loaded_chat_partners. case_decide as Hpu.
    + subst p. unfold half_parted, with_outbox, with_chat_partners. simpl.
      by rewrite <- app_assoc.
    + destruct (chat_partners w !! p) as [q|] eqn:Hq.
      * exfalso. apply Hp. split; [congruence|eauto].
      * simpl. unfold half_parted, with_outbox, with_chat_partners. simpl.
        by rewrite <- app_assoc.
Qed.

(** *** Leaving the queue and ending a chat *)

(** X1: [stop_search] never raises, takes the caller and nobody else out of
    the queue, leaves the registry and the profiles alone, and a second
    [stop_search] only reports that the caller is not searching. *)
Theorem stop_search_total_and_idempotent w u :
  let w' := (stop_search u w).2 in
  (stop_search u w).1 = Ok tt
  ∧ waiting_users w' = waiting_users w ∖ {[u]}
  ∧ chat_partners w' = chat_partners w
  ∧ user_data w' = user_data w
  ∧ (u ∈ waiting_users w →
     outbox w' = outbox w ++ [(u, SearchStopped); (u, MainMenu)])
  ∧ stop_search u w' =
      (Ok tt, with_outbox (λ o, o ++ [(u, NotSearching); (u, MainMenu)]) w').
Proof.
  simpl. rewrite stop_search_run. simpl. split_and!; try done.
  - case_bool_decide as Hu; simpl; [done|].
    apply set_eq. intros v. rewrite elem_of_difference, elem_of_singleton.
    split; [|by intros [? _]]. intros Hv. split; [done|]. by intros ->.
  - by case_bool_decide.
  - by case_bool_decide.
  - intros Hu. by rewrite bool_decide_eq_true_2.
  - apply stop_search_not_waiting. case_bool_decide as Hu; simpl; [|done].
    rewrite elem_of_difference, elem_of_singleton. by intros [_ ?].
Qed.

(** X2: when [u] and [p] are each other's partner, [stop_chat u] returns
    normally, deletes exactly the two entries, leaves the queue alone and
    tells both of them; afterwards [stop_chat] by either of them finds no
    active dialog. *)
Theorem stop_chat_of_paired_couple w u p :
  chat_partners w !! u = Some p → chat_partners w !! p = Some u → u ≠ p →
  let w' := (stop_chat u w).2 in
  (stop_chat u w).1 = Ok tt
  ∧ chat_partners w' !! u = None ∧ chat_partners w' !! p = None
  ∧ (∀ v, v ≠ u → v ≠ p → chat_partners w' !! v = chat_partners w !! v)
  ∧ waiting_users w' = waiting_users w
  ∧ outbox w' = outbox w ++ [(u, YouBrokeLink); (p, PartnerBrokeLink);
                             (u, MainMenu); (p, MainMenu)]
  ∧ outbox (stop_chat u w').2 = outbox w' ++ [(u, NoActiveDialog); (u, MainMenu)]
  ∧ outbox (stop_chat p w').2 = outbox w' ++ [(p, NoActiveDialog); (p, MainMenu)].
Proof.
  intros Hu Hp Hne. simpl. rewrite stop_chat_run, Hu.
  rewrite bool_decide_eq_true_2 by (split; [congruence|eauto]). simpl.
  assert (delete p (delete u (chat_partners w)) !! u = None) as Hu'.
  { rewrite lookup_delete_ne by congruence. apply lookup_delete_eq. }
  assert (delete p (delete u (chat_partners w)) !! p = None) as Hp'.
  { apply lookup_delete_eq. }
  split_and!; try done.
  - intros v Hvu Hvp. by rewrite !lookup_delete_ne by congruence.
  - by rewrite stop_chat_no_partner.
  - by rewrite stop_chat_no_partner.
Qed.

(** X3: when the entry of [u] points to a user [p] that has no entry of its
    own (or to [u] itself), [stop_chat u] and [next_chat u] raise
    [KeyError p] after they have deleted the entry of [u] and sent the two
    notices; the other entries and the queue stay as they are, nobody gets
    the main menu, and [next_chat] does not search. *)
Theorem dangling_partner_raises_key_error w u p :
  chat_partners w !! u = Some p →
  p = u ∨ chat_partners w !! p = None →
  let ws := (stop_chat u w).2 in
  let wn := (next_chat u w).2 in
  ((stop_chat u w).1 = Raised (KeyError p)
   ∧ chat_partners ws = delete u (chat_partners w)
   ∧ waiting_users ws = waiting_users w
   ∧ outbox ws = outbox w ++ [(u, YouBrokeLink); (p, PartnerBrokeLink)])
  ∧ ((next_chat u w).1 = Raised (KeyError p)
     ∧ chat_partners wn = delete u (chat_partners w)
     ∧ waiting_users wn = waiting_users w
     ∧ outbox wn = outbox w ++ [(u, LookingForNewPartner);
                                (p, PartnerStartedNewSearch)]).
Proof.
  intros Hu Hp. simpl. rewrite stop_chat_run, next_chat_run, Hu.
  rewrite bool_decide_eq_false_2.
  2:{ intros [Hpu [q Hq]]. destruct Hp as [->|Hp]; [done|congruence]. }
  simpl. by rewrite loaded_chat_partners, loaded_waiting_users, loaded_outbox.
Qed.

(** *** What a command can change *)

Lemma begin_search_for_user_outbox u w :
  ∃ n rest, outbox (begin_search_for_user u w).2 = outbox w ++ (u, n) :: rest.
Proof using set_order_perm.
  rewrite begin_search_for_user_run. simpl. case_bool_decide.
  { simpl. rewrite loaded_outbox. by eexists _, _. }
  destruct (first_compatible _ _ _) as [p|]; [case_bool_decide|]; simpl;
    rewrite loaded_outbox, <- app_assoc; by eexists _, _.
Qed.

(** X4: no command is silent: whatever the state, and also when the handler
    raises, the messages sent so far are kept and the first new message
    goes to the user who sent the command. *)
Theorem every_command_answers_its_caller c w :
  ∃ n rest, outbox (after c w) = outbox w ++ (caller c, n) :: rest.
Proof using set_order_perm.
  destruct c as [u|u|u|u]; unfold after, handle, caller.
  - rewrite start_search_run.
    destruct (check_subscription u); [destruct (truthy _)|].
    + apply begin_search_for_user_outbox.
    + simpl. rewrite loaded_outbox. by eexists _, _.
    + simpl. rewrite loaded_outbox. by eexists _, _.
  - rewrite stop_search_run. simpl. case_bool_decide; simpl; by eexists _, _.
  - rewrite stop_chat_run. destruct (chat_partners w !! u) as [p|].
    + case_bool_decide; simpl; by eexists _, _.
    + simpl. by eexists _, _.
  - rewrite next_chat_run. destruct (chat_partners w !! u) as [p|].
    + case_bool_decide; [destruct (truthy _)|].
      * destruct (begin_search_for_user_outbox u (parted u p (loaded u w)))
          as (n & rest & ->).
        simpl. rewrite loaded_outbox, <- app_assoc. by eexists _, _.
      * simpl. rewrite loaded_outbox, <- app_assoc. by eexists _, _.
      * simpl. rewrite loaded_outbox. by eexists _, _.
    + simpl. rewrite loaded_outbox. by eexists _, _.
Qed.

Lemma begin_search_for_user_partner_provenance u w v p :
  chat_partners (begin_search_for_user u w).2 !! v = Some p →
  chat_partners w !! v = Some p
  ∨ (v ≠ p ∧ ((v = u ∧ p ∈ waiting_users w) ∨ (p = u ∧ v ∈ waiting_users w))).
Proof using set_order_perm.
  rewrite begin_search_for_user_run. simpl. case_bool_decide.
  { simpl. rewrite loaded_chat_partners. auto. }
  destruct (first_compatible _ _ _) as [q|] eqn:Hq.
  - pose proof (first_compatible_Some _ _ _ _ Hq) as (Hqu & _ & _).
    apply first_compatible_elem, set_order_elem in Hq.
    case_bool_decide; simpl; rewrite loaded_chat_partners; [|auto].
    destruct (decide (v = q)) as [->|Hvq].
    + rewrite lookup_insert_eq. intros [= <-]. right. split; [done|]. by right.
    + rewrite lookup_insert_ne by done. destruct (decide (v = u)) as [->|Hvu].
      * rewrite lookup_insert_eq. intros [= <-]. right. split; [done|]. by left.
      * rewrite lookup_insert_ne by done. auto.
  - simpl. rewrite loaded_chat_partners. auto.
Qed.

Lemma after_waiting c w v :
  v ∈ waiting_users (after c w) →
  v ∈ waiting_users w
  ∨ (v = caller c ∧ (c = BeginSearch v ∨ c = NextSession v)
     ∧ truthy (stored_gender w v) = true).
Proof using set_order_perm.
  destruct c as [u|u|u|u]; unfold after, handle, caller.
  - rewrite start_search_run.
    destruct (check_subscription u); [destruct (truthy _) eqn:Hg|];
      [|simpl; rewrite loaded_waiting_users; auto..].
    intros [->|?]%begin_search_for_user_waiting; auto.
  - rewrite stop_search_run. simpl. case_bool_decide; simpl; [|auto].
    intros [? _]%elem_of_difference. auto.
  - rewrite stop_chat_run. destruct (chat_partners w !! u) as [p|].
    + case_bool_decide; simpl; auto.
    + simpl. auto.
  - rewrite next_chat_run. destruct (chat_partners w !! u) as [p|].
    + case_bool_decide; [destruct (truthy _) eqn:Hg|].
      * intros [->|Hv]%begin_search_for_user_waiting; [right; auto|].
        simpl in Hv. rewrite loaded_waiting_users in Hv. auto.
      * unfold ask_gender, send_message, modify. simpl.
        rewrite loaded_waiting_users. auto.
      * simpl. rewrite loaded_waiting_users. auto.
    + simpl. rewrite loaded_waiting_users. auto.
Qed.

Lemma after_partner c w v p :
  chat_partners (after c w) !! v = Some p →
  chat_partners w !! v = Some p
  ∨ (v ≠ p ∧ truthy (stored_gender w (caller c)) = true
     ∧ ((v = caller c ∧ p ∈ waiting_users w) ∨ (p = caller c ∧ v ∈ waiting_users w))).
Proof using set_order_perm.
  destruct c as [u|u|u|u]; unfold after, handle, caller.
  - rewrite start_search_run.
    destruct (check_subscription u); [destruct (truthy _) eqn:Hg|];
      [|simpl; rewrite loaded_chat_partners; auto..].
    intros [?|[? ?]]%begin_search_for_user_partner_provenance; auto.
  - rewrite stop_search_run. simpl. case_bool_decide; simpl; auto.
  - rewrite stop_chat_run. destruct (chat_partners w !! u) as [q|].
    + case_bool_decide; simpl; rewrite ?lookup_delete_Some; intuition auto.
    + simpl. auto.
  - rewrite next_chat_run. destruct (chat_partners w !! u) as [q|].
    + case_bool_decide; [destruct (truthy _) eqn:Hg|].
      * intros [Hv|[? Hv]]%begin_search_for_user_partner_provenance.
        -- simpl in Hv. rewrite !lookup_delete_Some, loaded_chat_partners in Hv.
           left. tauto.
        -- simpl in Hv. rewrite loaded_waiting_users in Hv. auto.
      * unfold ask_gender, send_message, modify. simpl.
        rewrite !lookup_delete_Some, loaded_chat_partners. tauto.
      * simpl. rewrite lookup_delete_Some, loaded_chat_partners. tauto.
    + simpl. rewrite loaded_chat_partners. auto.
Qed.

(** X5: a command puts nobody but its caller in the queue, and only a
    search or a next command of a caller with a gender does; every registry
    entry that a command adds joins its caller with a user taken from the
    queue, never a user with itself and never two third parties. *)
Theorem commands_only_move_their_caller c w :
  (∀ v, v ∈ waiting_users (after c w) →
        v ∈ waiting_users w
        ∨ (v = caller c ∧ (c = BeginSearch v ∨ c = NextSession v)
           ∧ truthy (stored_gender w v) = true))
  ∧ (∀ v p, chat_partners (after c w) !! v = Some p →
        chat_partners w !! v = Some p
        ∨ (v ≠ p ∧ truthy (stored_gender w (caller c)) = true
           ∧ ((v = caller c ∧ p ∈ waiting_users w)
              ∨ (p = caller c ∧ v ∈ waiting_users w)))).
Proof using set_order_perm. split; [apply after_waiting|apply after_partner]. Qed.

(** *** The profile store *)

Lemma update_row_nothing row : update_row None None None row = row.
Proof. by destruct row. Qed.

Lemma update_user_data_run u g p s w :
  update_user_data u g p s w =
    (Ok tt,
     let row := update_row g p s (default fresh_row (users w !! u)) in
     with_user_data (insert u (cache_of_row row)) (with_users (insert u row) w)).
Proof.
  assert (∀ f (m : gmap Z db_row) row, m !! u = Some row →
            alter f u m = <[u:=f row]> m) as Halter.
  { intros f m row Hm. apply map_eq. intros v. destruct (decide (v = u)) as [->|Hv].
    - by rewrite lookup_alter_eq, lookup_insert_eq, Hm.
    - by rewrite lookup_alter_ne, lookup_insert_ne. }
  unfold update_user_data, ensure_user_record, refresh_user_cache. unfold_ops.
  destruct (users w !! u) as [row|] eqn:Hrow; destruct g, p, s; simpl.
  all: rewrite ?lookup_alter_eq, ?lookup_insert_eq, ?Hrow; simpl.
  all: rewrite ?update_row_nothing.
  all: unfold with_user_data, with_users; simpl.
  all: rewrite ?(Halter _ _ row Hrow), ?alter_insert_eq, ?insert_insert_eq.
  all: try done.
  by rewrite (insert_id (users w) u row).
Qed.

Lemma or_default_idem s : or_default (Some (or_default s)) = or_default s.
Proof.
  unfold or_default at 2 3. destruct (truthy s) eqn:Hs; [|by vm_compute].
  destruct s as [x|]; [|done]. simpl in *. unfold or_default. simpl. by rewrite Hs.
Qed.

(** X7: [update_user_data] never raises and touches one user only: its row
    becomes the old row (a fresh one when there was none) with the given
    columns replaced, its cache entry is rebuilt from that row, whatever it
    held before; the rows and cache entries of the other users, the queue,
    the registry and the outbox stay as they are. *)
Theorem update_user_data_effect u g p s w :
  let row := update_row g p s (default fresh_row (users w !! u)) in
  let w' := (update_user_data u g p s w).2 in
  (update_user_data u g p s w).1 = Ok tt
  ∧ users w' !! u = Some row
  ∧ user_data w' !! u = Some (cache_of_row row)
  ∧ (∀ v, v ≠ u → users w' !! v = users w !! v ∧ user_data w' !! v = user_data w !! v)
  ∧ waiting_users w' = waiting_users w
  ∧ chat_partners w' = chat_partners w
  ∧ outbox w' = outbox w.
Proof.
  cbv zeta. rewrite update_user_data_run. simpl. split_and!; try done.
  - apply lookup_insert_eq.
  - apply lookup_insert_eq.
  - intros v Hv. by rewrite !lookup_insert_ne.
Qed.

(** X8: [ensure_user_loaded] never raises and never refreshes: a cached
    profile stays as it is even when the row says something else; a user
    without cache entry gets the profile of its row, and a user without
    row gets a fresh row without gender.  Other users, queue, registry and
    outbox are untouched, and a second call changes nothing. *)
Theorem ensure_user_loaded_effect u w :
  let w' := (ensure_user_loaded u w).2 in
  (ensure_user_loaded u w).1 = Ok tt
  ∧ (∀ p, user_data w !! u = Some p → user_data w' = user_data w)
  ∧ (user_data w !! u = None →
     user_data w' !! u = Some (cache_of_row (default fresh_row (users w !! u))))
  ∧ users w' !! u = Some (default fresh_row (users w !! u))
  ∧ (∀ v, v ≠ u → users w' !! v = users w !! v ∧ user_data w' !! v = user_data w !! v)
  ∧ waiting_users w' = waiting_users w
  ∧ chat_partners w' = chat_partners w
  ∧ outbox w' = outbox w
  ∧ ensure_user_loaded u w' = (Ok tt, w').
Proof.
  cbv zeta. rewrite !ensure_user_loaded_run. simpl.
  rewrite loaded_idem, loaded_waiting_users, loaded_chat_partners, loaded_outbox.
  split_and!; try done.
  - intros p Hp. unfold loaded. rewrite Hp. by destruct (users w !! u).
  - intros Hu. unfold loaded. rewrite Hu.
    destruct (users w !! u); simpl; by rewrite lookup_insert_eq.
  - unfold loaded.
    destruct (user_data w !! u), (users w !! u) as [row|] eqn:Hrow; simpl;
      by rewrite ?lookup_insert_eq.
  - intros v Hv. unfold loaded.
    destruct (user_data w !! u), (users w !! u); simpl;
      by rewrite ?lookup_insert_ne.
Qed.

(** X9: switching premium off and on again keeps the stored preference:
    while premium is off the user has no preference, and once it is on
    again the preference is the one of the row; the gender is not touched. *)
Theorem premium_toggle_keeps_preference w u row :
  users w !! u = Some row →
  let w1 := (set_premium_status u false w).2 in
  let w2 := (set_premium_status u true w1).2 in
  _user_preference (user_data w1) u = DEFAULT_SEARCH_GENDER
  ∧ _user_preference (user_data w2) u = or_default (row_search_gender row)
  ∧ _user_gender (user_data w1) u = row_gender row
  ∧ _user_gender (user_data w2) u = row_gender row.
Proof.
  intros Hrow. cbv zeta. unfold set_premium_status.
  rewrite !update_user_data_run. simpl. rewrite Hrow. simpl.
  rewrite lookup_insert_eq. simpl.
  unfold _user_preference, _user_gender. rewrite !lookup_insert_eq. simpl.
  by rewrite or_default_idem.
Qed.

Lemma synced_loaded u w :
  cache_synced w → loaded u w = w ∨
    (user_data w !! u = None ∧ users w !! u = None
     ∧ loaded u w = with_user_data (insert u (cache_of_row fresh_row))
                      (with_users (insert u fresh_row) w)).
Proof.
  unfold cache_synced. intros Hs. unfold loaded.
  destruct (user_data w !! u) as [p|] eqn:Hp; rewrite Hs, lookup_fmap in Hp;
    destruct (users w !! u) as [row|] eqn:Hrow; simpl in Hp; try done; auto.
Qed.

Lemma loaded_synced u w : cache_synced w → cache_synced (loaded u w).
Proof.
  intros Hs. destruct (synced_loaded u w Hs) as [->|(_ & _ & ->)]; [done|].
  unfold cache_synced in *. simpl. by rewrite Hs, fmap_insert.
Qed.

Lemma update_user_data_synced u g p s w :
  cache_synced w → cache_synced (update_user_data u g p s w).2.
Proof.
  unfold cache_synced. intros Hs. rewrite update_user_data_run. simpl.
  by rewrite Hs, fmap_insert.
Qed.

Lemma begin_search_for_user_profiles u w :
  user_data (begin_search_for_user u w).2 = user_data (loaded u w)
  ∧ users (begin_search_for_user u w).2 = users (loaded u w).
Proof using set_order_perm.
  rewrite begin_search_for_user_run. simpl. case_bool_decide; [done|].
  destruct (first_compatible _ _ _); [by case_bool_decide|done].
Qed.

Lemma after_profiles c w :
  (user_data (after c w) = user_data w ∧ users (after c w) = users w)
  ∨ (user_data (after c w) = user_data (loaded (caller c) w)
     ∧ users (after c w) = users (loaded (caller c) w)).
Proof using set_order_perm.
  destruct c as [u|u|u|u]; unfold after, handle, caller.
  - right. rewrite start_search_run.
    destruct (check_subscription u); [destruct (truthy _)|]; try done.
    apply begin_search_for_user_profiles.
  - left. rewrite stop_search_run. simpl. by case_bool_decide.
  - left. rewrite stop_chat_run. destruct (chat_partners w !! u); [|done].
    by case_bool_decide.
  - right. rewrite next_chat_run. destruct (chat_partners w !! u); [|done].
    case_bool_decide; [destruct (truthy _)|]; try done.
    destruct (begin_search_for_user_profiles u (parted u z (loaded u w))) as [-> ->].
    by rewrite parted_loaded.
Qed.

Lemma after_synced c w : cache_synced w → cache_synced (after c w).
Proof using set_order_perm.
  intros Hs. unfold cache_synced.
  destruct (after_profiles c w) as [[-> ->]|[-> ->]]; [done|].
  by apply loaded_synced.
Qed.

Lemma perform_synced a w : cache_synced w → cache_synced (perform a w).
Proof using set_order_perm.
  intros Hs. destruct a; cbn [perform];
    [by apply after_synced|by apply update_user_data_synced..].
Qed.

(** X10: in every state reached from start-up by commands and profile
    updates the cache is exactly the image of the table: every row is
    cached, every cache entry is the profile of its row, and no cached
    search preference is empty. *)
Theorem cache_mirrors_table table w :
  reachable_by_actions table w →
  cache_synced w
  ∧ (∀ u, user_data w !! u = cache_of_row <$> users w !! u)
  ∧ (∀ u p, user_data w !! u = Some p → search_gender p ≠ ""%string).
Proof using set_order_perm.
  intros Hr.
  assert (cache_synced w) as Hs.
  { induction Hr as [|a w _ IH]; [done|by apply perform_synced]. }
  split_and!; [done|..].
  - intros u. by rewrite Hs, lookup_fmap.
  - intros u p. rewrite Hs, lookup_fmap.
    destruct (users w !! u) as [row|]; [|done].
    intros [= <-]. apply cache_of_row_search_gender.
Qed.

(** *** Genders of the users in queue and registry *)

Lemma synced_stored_gender w u :
  cache_synced w → stored_gender w u = _user_gender (user_data w) u.
Proof.
  unfold cache_synced, stored_gender, _user_gender. intros Hs.
  destruct (user_data w !! u) as [p|] eqn:Hp; [done|].
  rewrite Hs, lookup_fmap in Hp. by destruct (users w !! u).
Qed.

Lemma synced_loaded_lookup u w v :
  cache_synced w →
  user_data (loaded u w) !! v = user_data w !! v
  ∨ (user_data w !! v = None ∧ user_data (loaded u w) !! v = Some (cache_of_row fresh_row)).
Proof.
  intros Hs. destruct (synced_loaded u w Hs) as [->|(Hu & _ & ->)]; [by left|].
  simpl. destruct (decide (v = u)) as [->|Hv].
  - right. by rewrite lookup_insert_eq.
  - left. by rewrite lookup_insert_ne.
Qed.

Lemma synced_loaded_gender u w v :
  cache_synced w →
  _user_gender (user_data (loaded u w)) v = _user_gender (user_data w) v.
Proof.
  intros Hs. unfold _user_gender.
  by destruct (synced_loaded_lookup u w v Hs) as [->|[-> ->]].
Qed.

Lemma after_gender c w v :
  cache_synced w →
  _user_gender (user_data (after c w)) v = _user_gender (user_data w) v.
Proof using set_order_perm.
  intros Hs. destruct (after_profiles c w) as [[-> _]|[-> _]]; [done|].
  by apply synced_loaded_gender.
Qed.

Lemma after_gendered c w : cache_synced w → gendered w → gendered (after c w).
Proof using set_order_perm.
  intros Hs Hg v Hv. rewrite after_gender by done. destruct Hv as [Hv|[p Hp]].
  - apply after_waiting in Hv as [Hv|(_ & _ & Hv)]; [apply Hg; by left|].
    by rewrite <- synced_stored_gender.
  - apply after_partner in Hp as [Hp|(_ & Hc & [[-> _]|[_ Hv]])].
    + apply Hg. right. eauto.
    + by rewrite <- synced_stored_gender.
    + apply Hg. by left.
Qed.

Lemma update_gendered u g p s w :
  cache_synced w → gendered w →
  (∀ x, g = Some x → x ≠ ""%string) →
  gendered (update_user_data u g p s w).2.
Proof.
  intros Hs Hg Hx v Hv. rewrite update_user_data_run in *. simpl in *.
  unfold _user_gender. destruct (decide (v = u)) as [->|Hvu].
  - rewrite lookup_insert_eq. simpl. destruct g as [x|]; simpl.
    + apply bool_decide_eq_true_2. by apply Hx.
    + specialize (Hg u Hv). unfold _user_gender in Hg.
      rewrite Hs, lookup_fmap in Hg. by destruct (users w !! u).
  - rewrite lookup_insert_ne by done. by apply Hg.
Qed.

Lemma perform_gendered a w : cache_synced w → gendered w → gendered (perform a w).
Proof using set_order_perm.
  intros Hs Hg. destruct a as [c|u boy|u t|u]; cbn [perform].
  - by apply after_gendered.
  - apply update_gendered; try done. intros x [= <-]. by destruct boy.
  - by apply update_gendered.
  - by apply update_gendered.
Qed.

Lemma reachable_by_actions_invariant table w :
  reachable_by_actions table w → cache_synced w ∧ gendered w.
Proof using set_order_perm.
  induction 1 as [|a w _ [IHs IHg]].
  - split; [done|]. intros u [Hu|[p Hp]].
    + by apply not_elem_of_empty in Hu.
    + simpl in Hp. by rewrite lookup_empty in Hp.
  - split; [by apply perform_synced|by apply perform_gendered].
Qed.

(** X11: in every state reached from start-up by commands and profile
    updates, every user in the queue and every user with a registry entry
    has a gender: no command admits a user without gender, and no profile
    update clears a gender. *)
Theorem queued_and_paired_users_have_gender table w u :
  reachable_by_actions table w →
  u ∈ waiting_users w ∨ is_Some (chat_partners w !! u) →
  truthy (_user_gender (user_data w) u) = true
  ∧ truthy (stored_gender w u) = true.
Proof using set_order_perm.
  intros [Hs Hg]%reachable_by_actions_invariant Hu.
  rewrite synced_stored_gender by done. split; by apply Hg.
Qed.

(** X12: in such a state the gender test of [next_chat] never stops a user
    who has a partner: when the partner has an entry of its own, [next_chat]
    separates the two and runs [begin_search_for_user] for the caller. *)
Theorem next_chat_always_searches table w f g :
  reachable_by_actions table w →
  chat_partners w !! f = Some g → is_Some (chat_partners w !! g) → f ≠ g →
  next_chat f w = begin_search_for_user f (parted f g (loaded f w)).
Proof using set_order_perm.
  intros [Hs Hg]%reachable_by_actions_invariant Hf Hp Hne.
  rewrite (next_chat_paired_run w f g) by done.
  rewrite synced_stored_gender by done. rewrite Hg; [done|]. right. eauto.
Qed.

(** X6: nobody is ever registered as its own partner, in any state reached
    from start-up by any commands and profile updates, including searches
    started while paired. *)
Theorem nobody_is_paired_with_itself table w :
  reachable_by_actions table w → irreflexive (chat_partners w).
Proof using set_order_perm.
  induction 1 as [|a w _ IH].
  - intros u Hu. simpl in Hu. by rewrite lookup_empty in Hu.
  - intros v Hv. destruct a as [c|u boy|u t|u]; cbn [perform] in Hv.
    + apply after_partner in Hv as [Hv|[Hvv _]]; [by apply (IH v)|done].
    + unfold set_user_gender in Hv. rewrite update_user_data_run in Hv.
      by apply (IH v).
    + unfold set_search_gender in Hv. rewrite update_user_data_run in Hv.
      by apply (IH v).
    + unfold set_premium_status in Hv. rewrite update_user_data_run in Hv.
      by apply (IH v).
Qed.

(** *** New pairs and the users left waiting *)

Lemma can_users_chat_preference (ud : gmap Z profile) a b pa :
  can_users_chat ud a b = true →
  ud !! a = Some pa → premium pa = true →
  search_gender pa ≠ ""%string → search_gender pa ≠ DEFAULT_SEARCH_GENDER →
  _user_gender ud b = Some (search_gender pa).
Proof.
  unfold can_users_chat. intros Hc Ha Hp Hne Hnd. revert Hc.
  rewrite (_user_preference_effective ud a pa) by done.
  unfold effective_preference. rewrite Hp.
  destruct (_user_gender ud a) as [ga|]; [|done].
  destruct (_user_gender ud b) as [gb|]; [|done]. simpl.
  rewrite bool_decide_eq_true_2 by done. simpl.
  case_bool_decide as Hg; [done|]. intros _. f_equal.
  by destruct (decide (gb = search_gender pa)).
Qed.

Lemma can_users_chat_gender (ud : gmap Z profile) a b :
  can_users_chat ud a b = true →
  is_Some (_user_gender ud a) ∧ is_Some (_user_gender ud b).
Proof.
  unfold can_users_chat.
  destruct (_user_gender ud a), (_user_gender ud b); try done; eauto.
Qed.

Lemma begin_search_for_user_partner_compatible u w v p :
  chat_partners (begin_search_for_user u w).2 !! v = Some p →
  chat_partners w !! v = Some p
  ∨ can_users_chat (user_data (begin_search_for_user u w).2) v p = true.
Proof using set_order_perm.
  destruct (begin_search_for_user_profiles u w) as [-> _].
  rewrite begin_search_for_user_run. simpl. case_bool_decide.
  { simpl. rewrite loaded_chat_partners. auto. }
  destruct (first_compatible _ _ _) as [q|] eqn:Hq.
  - pose proof (first_compatible_Some _ _ _ _ Hq) as (Hqu & Hc & _).
    case_bool_decide; simpl; rewrite loaded_chat_partners; [|auto].
    destruct (decide (v = q)) as [->|Hvq].
    + rewrite lookup_insert_eq. intros [= <-]. right. by rewrite can_users_chat_sym.
    + rewrite lookup_insert_ne by done. destruct (decide (v = u)) as [->|Hvu].
      * rewrite lookup_insert_eq. intros [= <-]. by right.
      * rewrite lookup_insert_ne by done. auto.
  - simpl. rewrite loaded_chat_partners. auto.
Qed.

Lemma after_partner_compatible c w v p :
  chat_partners (after c w) !! v = Some p →
  chat_partners w !! v = Some p
  ∨ can_users_chat (user_data (after c w)) v p = true.
Proof using set_order_perm.
  destruct c as [u|u|u|u]; unfold after, handle.
  - rewrite start_search_run.
    destruct (check_subscription u); [destruct (truthy _)|];
      [|simpl; rewrite loaded_chat_partners; auto..].
    apply begin_search_for_user_partner_compatible.
  - rewrite stop_search_run. simpl. case_bool_decide; simpl; auto.
  - rewrite stop_chat_run. destruct (chat_partners w !! u) as [q|].
    + case_bool_decide; simpl; rewrite ?lookup_delete_Some; intuition auto.
    + simpl. auto.
  - rewrite next_chat_run. destruct (chat_partners w !! u) as [q|].
    + case_bool_decide; [destruct (truthy _)|].
      * intros [Hv|Hv]%begin_search_for_user_partner_compatible; [|by right].
        simpl in Hv. rewrite !lookup_delete_Some, loaded_chat_partners in Hv.
        left. tauto.
      * unfold ask_gender, send_message, modify. simpl.
        rewrite !lookup_delete_Some, loaded_chat_partners. tauto.
      * simpl. rewrite lookup_delete_Some, loaded_chat_partners. tauto.
    + simpl. rewrite loaded_chat_partners. auto.
Qed.

(** X13: every registry entry that a command adds joins two users who may
    chat by the policy with the profiles of that moment: both have a
    gender, and a premium user who has chosen a gender to search for is
    only given a partner of that gender, whether it searched or waited. *)
Theorem new_pairs_respect_preferences c w v p :
  chat_partners (after c w) !! v = Some p →
  chat_partners w !! v ≠ Some p →
  let ud := user_data (after c w) in
  can_users_chat ud v p = true
  ∧ is_Some (_user_gender ud v) ∧ is_Some (_user_gender ud p)
  ∧ (∀ pv, ud !! v = Some pv → premium pv = true →
       search_gender pv ≠ ""%string → search_gender pv ≠ DEFAULT_SEARCH_GENDER →
       _user_gender ud p = Some (search_gender pv))
  ∧ (∀ pp, ud !! p = Some pp → premium pp = true →
       search_gender pp ≠ ""%string → search_gender pp ≠ DEFAULT_SEARCH_GENDER →
       _user_gender ud v = Some (search_gender pp)).
Proof using set_order_perm.
  intros Hnew Hold. simpl.
  apply after_partner_compatible in Hnew as [?|Hc]; [done|].
  pose proof (can_users_chat_gender _ _ _ Hc) as [? ?].
  split_and!; try done.
  - intros pv. by apply can_users_chat_preference.
  - intros pp. apply can_users_chat_preference. by rewrite can_users_chat_sym.
Qed.

Lemma can_users_chat_loaded u w a b :
  cache_synced w →
  can_users_chat (user_data (loaded u w)) a b = can_users_chat (user_data w) a b.
Proof.
  intros Hs.
  assert (∀ v, _user_preference (user_data (loaded u w)) v
               = _user_preference (user_data w) v) as Hpref.
  { intros v. unfold _user_preference.
    by destruct (synced_loaded_lookup u w v Hs) as [->|[-> ->]]. }
  unfold can_users_chat. by rewrite !synced_loaded_gender, !Hpref.
Qed.

Lemma after_can_users_chat c w a b :
  cache_synced w →
  can_users_chat (user_data (after c w)) a b = can_users_chat (user_data w) a b.
Proof using set_order_perm.
  intros Hs. destruct (after_profiles c w) as [[-> _]|[-> _]]; [done|].
  by apply can_users_chat_loaded.
Qed.

Lemma begin_search_for_user_enqueued u w :
  0 ∉ waiting_users w → u ∉ waiting_users w →
  u ∈ waiting_users (begin_search_for_user u w).2 →
  ∀ q, q ∈ waiting_users w → q ≠ u →
       can_users_chat (user_data (loaded u w)) u q = false.
Proof using set_order_perm.
  intros H0 Hu. rewrite begin_search_for_user_run. simpl.
  rewrite bool_decide_eq_false_2 by done.
  destruct (first_compatible _ _ _) as [p|] eqn:Hp.
  - pose proof (first_compatible_elem _ _ _ _ Hp) as Hpw.
    apply set_order_elem in Hpw. case_bool_decide as Hp0; simpl.
    + rewrite loaded_waiting_users. by intros [? _]%elem_of_difference.
    + assert (p = 0) as -> by (by destruct (decide (p = 0))). done.
  - intros _ q Hq Hqu. rewrite first_compatible_None in Hp.
    apply Hp; [by apply set_order_elem|done].
Qed.

Lemma after_enqueued c w :
  cache_synced w → 0 ∉ waiting_users w → caller c ∉ waiting_users w →
  caller c ∈ waiting_users (after c w) →
  ∀ q, q ∈ waiting_users w → q ≠ caller c →
       can_users_chat (user_data w) (caller c) q = false.
Proof using set_order_perm.
  intros Hs H0 Hu. destruct c as [u|u|u|u]; unfold after, handle, caller in *.
  - rewrite start_search_run.
    destruct (check_subscription u); [destruct (truthy _)|];
      [|simpl; by rewrite loaded_waiting_users..].
    intros Hin q Hq Hqu. rewrite <- (can_users_chat_loaded u) by done.
    by apply begin_search_for_user_enqueued.
  - rewrite stop_search_run. simpl. by rewrite bool_decide_eq_false_2.
  - rewrite stop_chat_run. destruct (chat_partners w !! u) as [p|]; [|done].
    by case_bool_decide.
  - rewrite next_chat_run. destruct (chat_partners w !! u) as [p|];
      [|simpl; by rewrite loaded_waiting_users].
    case_bool_decide; [destruct (truthy _)|];
      [|unfold ask_gender, send_message, modify; simpl;
        by rewrite loaded_waiting_users
       |simpl; by rewrite loaded_waiting_users].
    intros Hin q Hq Hqu. rewrite <- (can_users_chat_loaded u) by done.
    change (user_data (loaded u w)) with (user_data (parted u p (loaded u w))).
    rewrite <- (parted_loaded u p w).
    apply (begin_search_for_user_enqueued u (parted u p (loaded u w)));
      simpl; rewrite ?loaded_waiting_users; done.
Qed.

Lemma reachable_nonzero_invariant table w :
  reachable_nonzero table w →
  cache_synced w ∧ (0 ∉ waiting_users w) ∧ pairwise_incompatible w.
Proof using set_order_perm.
  induction 1 as [|c w _ (Hs & H0 & Hp) Hc].
  - split_and!; [done|apply not_elem_of_empty|].
    intros a b Ha. by apply not_elem_of_empty in Ha.
  - split_and!.
    + by apply after_synced.
    + intros [?|(? & _)]%after_waiting; [done|]. by apply Hc.
    + intros a b Ha Hb Hab. rewrite after_can_users_chat by done.
      pose proof Ha as Ha'. pose proof Hb as Hb'.
      apply after_waiting in Ha' as [Ha'|(-> & _)];
        apply after_waiting in Hb' as [Hb'|(-> & _)].
      * by apply Hp.
      * destruct (decide (caller c ∈ waiting_users w)); [by apply Hp|].
        rewrite can_users_chat_sym. by apply after_enqueued.
      * destruct (decide (caller c ∈ waiting_users w)); [by apply Hp|].
        by apply after_enqueued.
      * done.
Qed.

(** X14: as long as the profiles stay as they are and the integer 0 is not
    used as a user id, no two users wait in the queue who could chat with
    each other: whoever could be matched has been matched. *)
Theorem waiting_users_are_incompatible table w a b :
  reachable_nonzero table w →
  a ∈ waiting_users w → b ∈ waiting_users w → a ≠ b →
  can_users_chat (user_data w) a b = false.
Proof using set_order_perm. intros (_ & _ & Hp)%reachable_nonzero_invariant. apply Hp. Qed.

(** *** The statistics *)

Lemma symmetric_delete_pair (m : gmap Z Z) u p :
  symmetric m → irreflexive m → m !! u = Some p →
  symmetric (delete p (delete u m)) ∧ irreflexive (delete p (delete u m)).
Proof.
  intros Hs Hi Hu. split.
  - intros v q. rewrite !lookup_delete_Some.
    intros (Hvp & Hvu & Hv). pose proof (Hs _ _ Hv) as Hq.
    split_and!; [| |done].
    + intros ->. pose proof (Hs _ _ Hu). congruence.
    + intros ->. congruence.
  - intros v. rewrite !lookup_delete_Some. intros (_ & _ & Hv). by apply (Hi v).
Qed.

Lemma symmetric_size_even (m : gmap Z Z) :
  symmetric m → irreflexive m → ∃ k : nat, size m = (2 * k)%nat.
Proof.
  remember (size m) as n eqn:Hn. revert m Hn.
  induction n as [n IH] using lt_wf_ind. intros m Hn Hs Hi.
  destruct (map_choose_or_empty m) as [(u & p & Hu)| ->].
  - pose proof (Hs _ _ Hu) as Hp.
    assert (u ≠ p) as Hup by (intros ->; by apply (Hi p)).
    destruct (symmetric_delete_pair m u p Hs Hi Hu) as [Hs' Hi'].
    assert (size (delete p (delete u m)) = pred (pred (size m))) as Hsize.
    { rewrite map_size_delete_Some by (rewrite lookup_delete_ne by done; eauto).
      by rewrite map_size_delete_Some by eauto. }
    assert (size (delete u m) ≠ 0%nat) as Hne1.
    { apply map_size_ne_0_lookup. exists p. rewrite lookup_delete_ne by done. eauto. }
    rewrite map_size_delete_Some in Hne1 by eauto.
    destruct (IH (pred (pred n))) with (m := delete p (delete u m)) as [k Hk];
      [lia|by rewrite Hsize, Hn|done|done|].
    exists (S k). lia.
  - exists 0%nat. by rewrite Hn, map_size_empty.
Qed.

(** X15: when queue and registry are consistent, the number of active
    dialogs shown by the statistics, [len(chat_partners) // 2], is exact:
    the registry holds twice that many entries. *)
Theorem stats_count_pairs_exactly w :
  consistent w →
  Z.of_nat (size (chat_partners w)) = 2 * stats_active_pairs w
  ∧ 0 ≤ stats_active_pairs w
  ∧ (stats_active_pairs w = 0 ↔ chat_partners w = ∅).
Proof.
  intros (_ & Hs & Hi). unfold stats_active_pairs.
  destruct (symmetric_size_even _ Hs Hi) as [k Hk]. rewrite Hk.
  replace (Z.of_nat (2 * k)) with (Z.of_nat k * 2) by lia.
  rewrite Z.div_mul by lia.
  split_and!; [lia..|]. rewrite <- map_size_empty_iff. lia.
Qed.

(** *** The handlers around the matching core *)

Ltac unfold_bot :=
  cbv [mbind B_bind mret B_ret get_bot modify_bot raise_bot emit].

Lemma lift_run {A} (m : M A) s r w' l :
  m (globals s) = (r, w') → outbox w' = outbox (globals s) ++ l →
  lift m s =
    (r, {| globals := w'; banned := banned s; bans := bans s;
           user_states := user_states s; log := log s ++ (sent_of <$> l) |}).
Proof.
  intros Hm Ho. unfold lift. rewrite Hm, Ho.
  by rewrite drop_app_length.
Qed.

Lemma lift_ensure_user_loaded u s :
  lift (ensure_user_loaded u) s = (Ok tt, with_globals (loaded u) s).
Proof.
  rewrite (lift_run _ s (Ok tt) (loaded u (globals s)) []).
  - unfold with_globals. simpl. by rewrite app_nil_r.
  - apply ensure_user_loaded_run.
  - by rewrite loaded_outbox, app_nil_r.
Qed.

Lemma lift_send_message c n s :
  lift (send_message c n) s =
    (Ok tt, with_log (λ l, l ++ [Sent c n])
              (with_globals (with_outbox (λ o, o ++ [(c, n)])) s)).
Proof.
  by rewrite (lift_run _ s (Ok tt)
                (with_outbox (λ o, o ++ [(c, n)]) (globals s)) [(c, n)]).
Qed.

Lemma lift_is_user_subscribed u s :
  lift (is_user_subscribed u) s =
    if check_subscription u then (Ok true, s)
    else (Ok false, with_log (λ l, l ++ [Sent u SubscribePrompt])
                      (with_globals (with_outbox (λ o, o ++ [(u, SubscribePrompt)])) s)).
Proof.
  destruct (check_subscription u) eqn:Hc.
  - rewrite (lift_run _ s (Ok true) (globals s) []).
    + destruct s. simpl. by rewrite app_nil_r.
    + by rewrite is_user_subscribed_run, Hc.
    + by rewrite app_nil_r.
  - rewrite (lift_run _ s (Ok false)
               (with_outbox (λ o, o ++ [(u, SubscribePrompt)]) (globals s))
               [(u, SubscribePrompt)]); [done| |done].
    by rewrite is_user_subscribed_run, Hc.
Qed.

Lemma lift_update_user_data u g p t s :
  lift (update_user_data u g p t) s =
    (Ok tt, with_globals (λ w, (update_user_data u g p t w).2) s).
Proof.
  rewrite (lift_run _ s (Ok tt) (update_user_data u g p t (globals s)).2 []).
  - unfold with_globals. simpl. by rewrite app_nil_r.
  - by rewrite update_user_data_run.
  - rewrite update_user_data_run. simpl. by rewrite app_nil_r.
Qed.

Lemma is_banned_run u s :
  is_banned u s =
    (Ok match users (globals s) !! u with
        | Some _ => bool_decide (default 0 (banned s !! u) = 1)
        | None => false
        end, s).
Proof. done. Qed.

Lemma send_creator_branding_banner_run u s :
  send_creator_branding_banner u s =
    (Ok tt,
     with_log
       (λ l, l ++ match user_data (loaded u (globals s)) !! u with
                  | Some info =>
                      if premium info then []
                      else if bool_decide (branding_text ≠ ""%string)
                           then [SentReply u (Branding branding_text)] else []
                  | None => []
                  end)
       (with_globals (loaded u) s)).
Proof.
  unfold send_creator_branding_banner. unfold_bot.
  rewrite lift_ensure_user_loaded. simpl.
  destruct (loaded_cached u (globals s)) as [info ->].
  unfold with_log, with_globals. simpl.
  destruct (premium info); [by rewrite app_nil_r|].
  case_bool_decide; simpl; [done|by rewrite app_nil_r].
Qed.

Lemma start_run u s :
  start u s =
    let s0 := with_globals (loaded u) s in
    if bool_decide (default 0 (banned s !! u) = 1)
    then (Ok tt, with_log (λ l, l ++ [SentReply u Blocked]) s0)
    else if check_subscription u then
      match user_data (loaded u (globals s)) !! u with
      | Some info =>
          let prompt := if truthy (gender info) then [] else [(u, ChooseGender)] in
          (Ok tt,
           with_log
             (λ l, l ++ (if premium info then []
                         else if bool_decide (branding_text ≠ ""%string)
                              then [SentReply u (Branding branding_text)] else [])
                     ++ [SentReply u Welcome]
                     ++ (sent_of <$> prompt) ++ [Sent u MainMenu])
             (with_globals (λ w, with_outbox (λ o, o ++ prompt ++ [(u, MainMenu)]) (loaded u w)) s))
      | None => (Raised (KeyError u), s0)
      end
    else (Ok tt,
          with_log (λ l, l ++ [Sent u SubscribePrompt])
            (with_globals (λ w, with_outbox (λ o, o ++ [(u, SubscribePrompt)]) (loaded u w)) s)).
Proof.
  unfold start. unfold_bot.
  rewrite lift_ensure_user_loaded, is_banned_run. cbn [globals with_globals banned].
  destruct (loaded_row u (globals s)) as [row ->].
  case_bool_decide as Hb; [done|].
  rewrite lift_is_user_subscribed.
  destruct (check_subscription u); [|done]. cbn [negb].
  rewrite send_creator_branding_banner_run. cbn [globals with_globals with_log].
  rewrite loaded_idem.
  destruct (loaded_cached u (globals s)) as [info Hi]. rewrite Hi.
  unfold ask_gender, show_main_buttons.
  destruct (truthy (gender info)); cbn [negb]; rewrite !lift_send_message;
    unfold with_log, with_globals, with_outbox; cbn;
    rewrite loaded_idem, <- ?app_assoc; reflexivity.
Qed.
Lemma forward_message_run control m s :
  forward_message control m s =
    let u := chat_id m in
    let s0 := with_globals (loaded u) s in
    if check_subscription u then
      match user_states s !! u with
      | Some _ => (Ok tt, s0)
      | None =>
          if control (text m) then (Ok tt, s0)
          else (Ok tt,
                with_log
                  (λ l, l ++ [match chat_partners (globals s) !! u with
                              | Some p => Copied p u (message_id m)
                              | None => SentReply u NoPartner
                              end]) s0)
      end
    else (Ok tt,
          with_log (λ l, l ++ [Sent u SubscribePrompt])
            (with_globals (λ w, with_outbox (λ o, o ++ [(u, SubscribePrompt)]) (loaded u w)) s)).
Proof.
  unfold forward_message. unfold_bot.
  rewrite lift_ensure_user_loaded, lift_is_user_subscribed.
  destruct (check_subscription (chat_id m)); [|done]. cbn [negb user_states with_globals].
  destruct (user_states s !! chat_id m); [done|].
  destruct (control (text m)); [done|].
  cbn [globals with_globals]. rewrite loaded_chat_partners.
  by destruct (chat_partners (globals s) !! chat_id m).
Qed.

Lemma premium_search_run u s :
  premium_search u s =
    if check_subscription u then
      (Ok tt,
       with_log
         (λ l, l ++ [SentReply u
                       match user_data (loaded u (globals s)) !! u with
                       | Some info => if premium info then PremiumOwner else PremiumOffer
                       | None => PremiumOffer
                       end])
         (with_globals (loaded u) s))
    else (Ok tt,
          with_log (λ l, l ++ [Sent u SubscribePrompt])
            (with_globals (λ w, with_outbox (λ o, o ++ [(u, SubscribePrompt)]) (loaded u w)) s)).
Proof.
  unfold premium_search. unfold_bot.
  rewrite lift_ensure_user_loaded, lift_is_user_subscribed.
  destruct (check_subscription u); [|done]. cbn [negb globals with_globals].
  destruct (user_data (loaded u (globals s)) !! u) as [info|]; [|done].
  by destruct (premium info).
Qed.

Lemma show_premium_settings_run u s :
  show_premium_settings u s =
    match user_data (loaded u (globals s)) !! u with
    | Some info =>
        (Ok tt,
         with_log (λ l, l ++ [SentReply u (PremiumSettings (or_default (Some (search_gender info))))])
           (with_globals (loaded u) s))
    | None => (Raised (KeyError u), with_globals (loaded u) s)
    end.
Proof.
  unfold show_premium_settings. unfold_bot.
  rewrite lift_ensure_user_loaded. cbn [globals with_globals].
  by destruct (user_data (loaded u (globals s)) !! u) as [info|].
Qed.
Ltac closed_decides :=
  repeat match goal with
         | |- context [bool_decide ?P] =>
             let b := eval vm_compute in (bool_decide P) in
             change (bool_decide P) with b
         end;
  cbv iota.

Lemma callback_query_gender ext c s (boy : bool) :
  data c = (if boy then "gender_boy" else "gender_girl")%string →
  callback_query ext c s =
    let u := from_user_id c in
    let g := if boy then GENDER_BOY else GENDER_GIRL in
    (Ok tt,
     with_log
       (λ l, l ++ [Answered (call_id c) (Some (GenderToast boy));
                   SentReply u (GenderSaved boy); Sent u MainMenu])
       (with_globals
          (λ w, with_outbox (λ o, o ++ [(u, MainMenu)])
                  (set_user_gender u g (loaded u w)).2) s)).
Proof.
  intros Hd. unfold callback_query. rewrite Hd. unfold_bot.
  rewrite lift_ensure_user_loaded.
  destruct boy; closed_decides; unfold set_user_gender, show_main_buttons;
    rewrite lift_update_user_data; cbn [with_globals with_log globals log];
    rewrite lift_send_message;
    unfold with_log, with_globals; cbn; rewrite <- ?app_assoc; reflexivity.
Qed.
Lemma search_gender_targets_lookup key target :
  (key, target) ∈ search_gender_targets →
  list_to_map (M := gmap string string) search_gender_targets !! key = Some target
  ∧ bool_decide (key ∈ admin_callbacks) = false
  ∧ key ≠ "check_subscription"%string ∧ key ≠ "gender_boy"%string
  ∧ key ≠ "gender_girl"%string ∧ key ≠ "buy_premium"%string
  ∧ key ≠ "check_payment"%string ∧ key ≠ "premium_settings"%string
  ∧ or_default (Some target) = target.
Proof.
  unfold search_gender_targets. rewrite !elem_of_cons, elem_of_nil.
  intros [H|[H|[H|[]]]]; injection H as -> ->; by vm_compute.
Qed.

Lemma loaded_updated u g p t w :
  loaded u (update_user_data u g p t w).2 = (update_user_data u g p t w).2.
Proof.
  rewrite update_user_data_run. cbn [snd].
  apply loaded_fixed; simpl; by rewrite lookup_insert_eq.
Qed.

Lemma updated_lookup u g p t w :
  user_data (update_user_data u g p t w).2 !! u =
    Some (cache_of_row (update_row g p t (default fresh_row (users w !! u)))).
Proof. rewrite update_user_data_run. simpl. by rewrite lookup_insert_eq. Qed.

Lemma callback_query_preference ext c s target info :
  (data c, target) ∈ search_gender_targets →
  user_data (loaded (from_user_id c) (globals s)) !! from_user_id c = Some info →
  callback_query ext c s =
    let u := from_user_id c in
    if premium info then
      (Ok tt,
       with_log
         (λ l, l ++ [Answered (call_id c) (Some (PreferenceToast target));
                     SentReply u (PremiumSettings target)])
         (with_globals (λ w, (set_search_gender u target (loaded u w)).2) s))
    else
      (Ok tt,
       with_log (λ l, l ++ [Answered (call_id c) (Some PremiumOnlyToast)])
         (with_globals (loaded u) s)).
Proof.
  intros Hk Hi.
  destruct (search_gender_targets_lookup _ _ Hk)
    as (Hl & Ha & H1 & H2 & H3 & H4 & H5 & H6 & Ht).
  unfold callback_query. unfold_bot. rewrite lift_ensure_user_loaded, Ha.
  rewrite !bool_decide_eq_false_2 by done. rewrite Hl.
  cbn [globals with_globals]. rewrite Hi.
  destruct (premium info); cbn [negb]; [|done].
  unfold set_search_gender. rewrite lift_update_user_data.
  cbn [with_log with_globals globals log].
  rewrite show_premium_settings_run. cbn [with_log with_globals globals log].
  rewrite loaded_updated, updated_lookup. cbn [search_gender cache_of_row update_row row_search_gender].
  rewrite !Ht. unfold with_log, with_globals. cbn [globals banned bans user_states log].
  by rewrite loaded_updated, <- app_assoc.
Qed.
(** X16 ([ban_user], [unban_user], [is_banned], [start]): once a user who
    has a row in the table is banned, [is_banned] answers true for them and
    [/start] only tells them that they are blocked; the ban flags of all
    other users, the queue and the registry stay as they are, and
    [unban_user] lifts the ban and deletes its record. *)
Theorem ban_user_blocks_start s u reason created_at :
  is_Some (users (globals s) !! u) →
  let s' := (ban_user u reason created_at s).2 in
  (is_banned u s').1 = Ok true
  ∧ bans s' !! u = Some (reason, created_at)
  ∧ start u s' =
      (Ok tt, with_log (λ l, l ++ [SentReply u Blocked]) (with_globals (loaded u) s'))
  ∧ (∀ v, v ≠ u → (is_banned v s').1 = (is_banned v s).1)
  ∧ globals s' = globals s
  ∧ (is_banned u (unban_user u s').2).1 = Ok false
  ∧ bans (unban_user u s').2 !! u = None.
Proof.
  intros [row Hrow]. cbv zeta. rewrite start_run. rewrite !is_banned_run.
  unfold ban_user, unban_user, modify_bot. cbn [snd fst globals banned bans].
  rewrite Hrow. rewrite !lookup_insert_eq, lookup_delete_eq. cbn [default].
  split_and!; try done.
  intros v Hv. rewrite !is_banned_run. cbn [fst globals banned].
  by rewrite lookup_insert_ne.
Qed.

(** X17 ([ban_user], [ensure_user_record], [is_banned], [start]): banning an
    identifier that has no row in the table records the ban but flags
    nobody: [is_banned] answers false, the first [/start] of that user runs
    exactly as without the ban, and the user is still not banned after it,
    although the ban list names them. *)
Theorem ban_of_unknown_user_is_lost s u reason created_at :
  banned_of_rows s → users (globals s) !! u = None →
  let s1 := (ban_user u reason created_at s).2 in
  let s2 := (start u s1).2 in
  (is_banned u s1).1 = Ok false
  ∧ (start u s1).1 = (start u s).1
  ∧ globals s2 = globals (start u s).2
  ∧ log s2 = log (start u s).2
  ∧ (is_banned u s2).1 = Ok false
  ∧ bans s2 !! u = Some (reason, created_at).
Proof.
  intros Hb Hu. cbv zeta.
  assert (banned s !! u = None) as Hf.
  { destruct (banned s !! u) eqn:Hf; [|done].
    destruct (Hb u) as [? ?]; [by rewrite Hf|congruence]. }
  assert (∀ b : bool, (if b then Ok tt else Ok tt) = Ok tt :> result unit) as Hif
    by (by intros []).
  rewrite !is_banned_run, !start_run.
  unfold ban_user, modify_bot. cbn [snd fst globals banned bans with_globals].
  rewrite Hu, Hf. cbn [default].
  rewrite bool_decide_eq_false_2 by done.
  destruct (check_subscription u);
    [destruct (user_data (loaded u (globals s)) !! u) as [info|]|];
    cbn [snd fst globals banned bans log with_globals with_log users with_outbox];
    rewrite ?Hf, ?lookup_insert_eq; cbn [default];
    destruct (loaded_row u (globals s)) as [row ->]; done.
Qed.

(** X18 ([forward_message]): a message of a subscribed user who has a
    partner, is in no admin dialogue and did not send a control command is
    copied to exactly that partner, and nothing else is sent; this also
    holds right after the sender has been banned, since the ban is not
    looked at. *)
Theorem forward_message_relays_to_partner control m s p :
  check_subscription (chat_id m) = true →
  user_states s !! chat_id m = None →
  control (text m) = false →
  chat_partners (globals s) !! chat_id m = Some p →
  forward_message control m s =
    (Ok tt, with_log (λ l, l ++ [Copied p (chat_id m) (message_id m)])
              (with_globals (loaded (chat_id m)) s))
  ∧ ∀ reason created_at,
      log (forward_message control m (ban_user (chat_id m) reason created_at s).2).2
      = log s ++ [Copied p (chat_id m) (message_id m)].
Proof.
  intros Hs Hu Hc Hp. split; [|intros reason created_at];
    rewrite forward_message_run; cbv zeta;
    unfold ban_user, modify_bot; cbn [snd globals user_states];
    by rewrite Hs, Hu, Hc, Hp.
Qed.

(** X19 ([forward_message]): whatever the state, the only message that
    [forward_message] may copy is the incoming one, from its sender to the
    partner registered for the sender, and only when the sender passes the
    subscription gate, is in no admin dialogue and did not send a control
    command. *)
Theorem forward_message_copies_only_to_partner control m s receiver sender mid :
  Copied receiver sender mid ∈ log (forward_message control m s).2 →
  Copied receiver sender mid ∈ log s
  ∨ (sender = chat_id m ∧ mid = message_id m
     ∧ chat_partners (globals s) !! sender = Some receiver
     ∧ check_subscription sender = true
     ∧ user_states s !! sender = None
     ∧ control (text m) = false).
Proof.
  rewrite forward_message_run. cbv zeta.
  destruct (check_subscription (chat_id m)) eqn:Hs.
  - destruct (user_states s !! chat_id m) eqn:Hu; [by left|].
    destruct (control (text m)) eqn:Hc; [by left|].
    cbn [snd log with_log with_globals].
    rewrite elem_of_app, list_elem_of_singleton.
    intros [H|H]; [by left|right].
    destruct (chat_partners (globals s) !! chat_id m) eqn:Hp; [|done].
    injection H as -> -> ->. by rewrite Hs.
  - cbn [snd log with_log with_globals].
    rewrite elem_of_app, list_elem_of_singleton. intros [H|H]; [by left|done].
Qed.

(** X20 ([start], [forward_message], [premium_search],
    [show_premium_settings]): none of these handlers changes the waiting
    queue, the partner registry, the ban flags, the ban records or the admin
    dialogues; in particular [/start] in the middle of a chat or of a search
    ends neither. *)
Theorem informational_handlers_keep_queue_and_registry s u control m :
  ∀ h, h ∈ [start u; forward_message control m; premium_search u;
            show_premium_settings u] →
    waiting_users (globals (h s).2) = waiting_users (globals s)
    ∧ chat_partners (globals (h s).2) = chat_partners (globals s)
    ∧ banned (h s).2 = banned s ∧ bans (h s).2 = bans s
    ∧ user_states (h s).2 = user_states s.
Proof.
  intros h. rewrite !elem_of_cons, elem_of_nil.
  intros [->|[->|[->|[->|[]]]]].
  - rewrite start_run. cbv zeta. repeat case_match;
      cbn; rewrite ?loaded_waiting_users, ?loaded_chat_partners; done.
  - rewrite forward_message_run. cbv zeta. repeat case_match;
      cbn; rewrite ?loaded_waiting_users, ?loaded_chat_partners; done.
  - rewrite premium_search_run. repeat case_match;
      cbn; rewrite ?loaded_waiting_users, ?loaded_chat_partners; done.
  - rewrite show_premium_settings_run. repeat case_match;
      cbn; rewrite ?loaded_waiting_users, ?loaded_chat_partners; done.
Qed.
Lemma loaded_other u v w :
  v ≠ u →
  users (loaded u w) !! v = users w !! v
  ∧ user_data (loaded u w) !! v = user_data w !! v.
Proof.
  intros Hv. unfold loaded. repeat case_match; simpl;
    by rewrite ?lookup_insert_ne.
Qed.

(** X21 ([callback_query], branches [gender_boy] and [gender_girl];
    [set_user_gender]): pressing a gender button stores that gender in the
    row and in the cached profile of the caller, whatever it was before,
    leaves every other user, the queue and the registry alone, answers the
    query, confirms and shows the main menu; a search started afterwards by
    a subscribed caller goes straight to the matching attempt. *)
Theorem gender_choice_is_stored ext c s (boy : bool) :
  data c = (if boy then "gender_boy" else "gender_girl")%string →
  let u := from_user_id c in
  let g := if boy then GENDER_BOY else GENDER_GIRL in
  let r := callback_query ext c s in
  r.1 = Ok tt
  ∧ row_gender <$> users (globals r.2) !! u = Some (Some g)
  ∧ gender <$> user_data (globals r.2) !! u = Some (Some g)
  ∧ (∀ v, v ≠ u → users (globals r.2) !! v = users (globals s) !! v
                  ∧ user_data (globals r.2) !! v = user_data (globals s) !! v)
  ∧ waiting_users (globals r.2) = waiting_users (globals s)
  ∧ chat_partners (globals r.2) = chat_partners (globals s)
  ∧ log r.2 = log s ++ [Answered (call_id c) (Some (GenderToast boy));
                        SentReply u (GenderSaved boy); Sent u MainMenu]
  ∧ (check_subscription u = true →
     start_search u (globals r.2) = begin_search_for_user u (globals r.2)).
Proof using set_order_perm.
  intros Hd. cbv zeta. rewrite (callback_query_gender ext c s boy Hd). cbv zeta.
  cbn [fst snd globals log with_log with_globals].
  unfold set_user_gender. rewrite update_user_data_run.
  cbn [fst snd globals log with_log with_globals with_outbox with_user_data
       with_users users user_data waiting_users chat_partners].
  rewrite !lookup_insert_eq, loaded_waiting_users, loaded_chat_partners.
  split_and!; try done.
  - intros v Hv. rewrite !lookup_insert_ne by done. by apply loaded_other.
  - intros Hs. apply start_search_gender_set; [done|].
    unfold stored_gender.
    cbn [user_data with_outbox with_user_data with_users].
    rewrite lookup_insert_eq. by destruct boy.
Qed.

(** X22 ([callback_query], branches [search_gender_any], [search_gender_male]
    and [search_gender_female]; [set_search_gender],
    [show_premium_settings]): only a premium user can change the search
    preference.  For a caller whose cached profile is not premium the
    handler answers that the settings are for premium users and changes
    nothing but loading the caller; for a premium caller the chosen
    preference is stored in the row and the cache and shown back.  In both
    cases the queue and the registry stay as they are. *)
Theorem search_preference_needs_premium ext c s target info :
  (data c, target) ∈ search_gender_targets →
  user_data (loaded (from_user_id c) (globals s)) !! from_user_id c = Some info →
  let u := from_user_id c in
  let r := callback_query ext c s in
  r.1 = Ok tt
  ∧ waiting_users (globals r.2) = waiting_users (globals s)
  ∧ chat_partners (globals r.2) = chat_partners (globals s)
  ∧ if premium info then
      row_search_gender <$> users (globals r.2) !! u = Some (Some target)
      ∧ search_gender <$> user_data (globals r.2) !! u = Some target
      ∧ log r.2 = log s ++ [Answered (call_id c) (Some (PreferenceToast target));
                            SentReply u (PremiumSettings target)]
    else
      globals r.2 = loaded u (globals s)
      ∧ log r.2 = log s ++ [Answered (call_id c) (Some PremiumOnlyToast)].
Proof.
  intros Hk Hi. cbv zeta. rewrite (callback_query_preference ext c s target info Hk Hi).
  destruct (search_gender_targets_lookup _ _ Hk) as (_ & _ & _ & _ & _ & _ & _ & _ & Ht).
  cbv zeta. destruct (premium info).
  - cbn [fst snd globals log with_log with_globals].
    unfold set_search_gender. rewrite update_user_data_run.
    cbn [fst snd globals log with_log with_globals with_outbox with_user_data
         with_users users user_data waiting_users chat_partners].
    rewrite !lookup_insert_eq, loaded_waiting_users, loaded_chat_partners.
    cbn. by rewrite Ht.
  - cbn [fst snd globals log with_log with_globals].
    by rewrite loaded_waiting_users, loaded_chat_partners.
Qed.
(** X23 ([start_search], [stop_search], [stop_chat], [next_chat],
    [begin_search_for_user], [connect_users]): in every state reached from
    start-up by commands in which no user who has a partner starts a search,
    nobody is both queued and paired, the registry is symmetric, nobody is
    paired with itself, and every further command returns without raising
    [KeyError]. *)
Theorem unpaired_searches_keep_the_registry_sound table w :
  reachable_unpaired table w →
  exclusive w ∧ symmetric (chat_partners w) ∧ irreflexive (chat_partners w)
  ∧ ∀ c, (handle c w).1 = Ok tt.
Proof using set_order_perm.
  intros Hr. destruct (reachable_unpaired_consistent table w Hr) as (He & Hs & Hi).
  split_and!; try done.
  assert (∀ u p, chat_partners w !! u = Some p →
            bool_decide (p ≠ u ∧ is_Some (chat_partners w !! p)) = true) as Hp.
  { intros u p Hu. apply bool_decide_eq_true_2. split.
    - intros ->. by apply (Hi u).
    - exists u. by apply Hs. }
  intros [u|u|u|u]; unfold handle.
  - rewrite start_search_run.
    destruct (check_subscription u), (truthy (stored_gender w u)); try done.
    by rewrite begin_search_for_user_run.
  - by rewrite stop_search_run.
  - rewrite stop_chat_run. destruct (chat_partners w !! u) as [p|] eqn:Hu; [|done].
    by rewrite (Hp u p Hu).
  - rewrite next_chat_run. destruct (chat_partners w !! u) as [p|] eqn:Hu; [|done].
    rewrite (Hp u p Hu). destruct (truthy (stored_gender w u)); [|done].
    by rewrite begin_search_for_user_run.
Qed.
End Handlers.

(** * Examples, counterexamples and instances *)

Lemma elements_order_perm : ∀ s : gset Z, elements s ≡ₚ elements s.
Proof. done. Qed.

Lemma table8_order_perm : ∀ s : gset Z, table8_order s ≡ₚ elements s.
Proof. intros s. apply merge_sort_Permutation. Qed.


Ltac by_compute := refine (bool_decide_unpack _ _); vm_compute; exact I.

(** ** Mutual exclusion and symmetry *)

(** C1 fails on the code: user 1 waits, user 2 arrives and is paired with
    user 1, then user 1 presses the search button again.  [start_search]
    does not look at [chat_partners], the queue is empty, and user 1 is
    added to it while still registered as the partner of user 2. *)
Theorem search_while_paired_breaks_exclusion :
  ∃ w, reachable false everyone elements table_free w
       ∧ 1 ∈ waiting_users w ∧ chat_partners w !! 1 = Some 2
       ∧ ¬ exclusive w.
Proof.
  exists (run false everyone elements
            [BeginSearch 1; BeginSearch 2; BeginSearch 1] (startup table_free)).
  assert (1 ∈ waiting_users (run false everyone elements
            [BeginSearch 1; BeginSearch 2; BeginSearch 1] (startup table_free)))
    as Hq by by_compute.
  split_and!.
  - cbn [run foldl]. do 3 apply reachable_after. apply reachable_startup.
  - exact Hq.
  - reflexivity.
  - intros He. specialize (He 1 Hq). vm_compute in He. discriminate.
Qed.

(** C2 fails on the code: users 1 and 2 are paired, user 3 waits, and user 1
    presses the search button again.  User 1 is connected to user 3 while
    the entry of user 2 still points to user 1.  When user 2 then stops the
    chat, the entries of 2 and 1 are deleted, and a later [stop_chat] of
    user 3 raises [KeyError] on the missing entry of user 1. *)
Theorem search_while_paired_breaks_symmetry :
  ∃ w, reachable false everyone elements table_free w
       ∧ chat_partners w !! 2 = Some 1 ∧ chat_partners w !! 1 = Some 3
       ∧ ¬ symmetric (chat_partners w)
       ∧ (stop_chat 3 (after false everyone elements (StopSession 2) w)).1
         = Raised (KeyError 1).
Proof.
  exists (run false everyone elements
            [BeginSearch 1; BeginSearch 2; BeginSearch 3; BeginSearch 1]
            (startup table_free)).
  split_and!.
  - cbn [run foldl]. do 4 apply reachable_after. apply reachable_startup.
  - reflexivity.
  - reflexivity.
  - intros Hs. specialize (Hs 2 1 eq_refl). vm_compute in Hs. discriminate.
  - reflexivity.
Qed.

(** ** The scan *)

(** C3 fails as stated: with user 1 waiting, the scan for user 2 returns
    user 1 and leaves the queue empty. *)
Lemma find_partner_for_user_changes_queue :
  let w := after false everyone elements (BeginSearch 1) (startup table_free) in
  let r := find_partner_for_user elements 2 w in
  waiting_users w = {[1]} ∧ r.1 = Ok (Some 1) ∧ waiting_users r.2 = ∅
  ∧ waiting_users r.2 ≠ waiting_users w.
Proof.
  split_and!; try reflexivity.
  intros H. apply (f_equal (λ s : gset Z, bool_decide (1 ∈ s))) in H.
  vm_compute in H. discriminate.
Qed.

Lemma find_partner_for_user_queue_effect_witness :
  (∀ s : gset Z, elements s ≡ₚ elements s)
  ∧ let w := after false everyone elements (BeginSearch 1) (startup table_free) in
    let r := find_partner_for_user elements 2 w in
    (r.1 = Ok None ∧ r.2 = w)
    ∨ (∃ p, r.1 = Ok (Some p) ∧ p ∈ waiting_users w
          ∧ waiting_users r.2 = waiting_users w ∖ {[p]}
          ∧ r.2 = with_waiting_users (λ s, s ∖ {[p]}) w).
Proof.
  split; [exact elements_order_perm|].
  exact (find_partner_for_user_queue_effect elements elements_order_perm
           (after false everyone elements (BeginSearch 1) (startup table_free)) 2).
Defined.

(** C5 fails as stated: users 1 and 8 enter the queue in that order, and
    the scan for user 2, with whom both are compatible, walks the set as
    CPython does ([[8, 1]]) and returns user 8, not the first inserted
    user 1. *)
Lemma scan_is_not_in_insertion_order :
  (∀ s : gset Z, table8_order s ≡ₚ elements s)
  ∧ let w := run false everyone table8_order [BeginSearch 1; BeginSearch 8]
               (startup table_picky) in
    waiting_users w = {[1; 8]}
    ∧ first_compatible (user_data w) 2 [1; 8] = Some 1
    ∧ (find_partner_for_user table8_order 2 w).1 = Ok (Some 8)
    ∧ chat_partners (after false everyone table8_order (BeginSearch 2) w) !! 2 = Some 8.
Proof.
  split; [exact table8_order_perm|]. split_and!; reflexivity.
Qed.

Lemma find_partner_for_user_first_in_iteration_witness :
  (∀ s : gset Z, table8_order s ≡ₚ elements s)
  ∧ let w := run false everyone table8_order [BeginSearch 1; BeginSearch 8]
               (startup table_picky) in
    (find_partner_for_user table8_order 2 w).1 ≠ Ok (Some 2).
Proof.
  split; [exact table8_order_perm|].
  apply (find_partner_for_user_first_in_iteration table8_order table8_order_perm).
Defined.

(** ** The matching attempt *)

(** A requester who is already searching: premium user 1 (a boy looking
    for girls) and user 2 (a boy) wait in the queue, and user 1 then sets
    its preference to "any".  When user 2 presses the search button again,
    it is told that it is already in the queue; nothing is scanned, so
    queue and registry stay as they are. *)
Lemma queued_requester_is_not_matched :
  let w0 := run false everyone elements [BeginSearch 1; BeginSearch 2]
              (startup table_change) in
  let w := (set_search_gender 1 DEFAULT_SEARCH_GENDER w0).2 in
  let w' := after false everyone elements (BeginSearch 2) w in
  truthy (stored_gender w 2) = true
  ∧ waiting_users w = {[1; 2]}
  ∧ can_users_chat (user_data w) 2 1 = true
  ∧ first_compatible (user_data w) 2 (elements (waiting_users w)) = Some 1
  ∧ waiting_users w' = {[1; 2]}
  ∧ chat_partners w' = ∅
  ∧ w' = (begin_search_for_user elements 2 w).2
  ∧ last (outbox w') = Some (2, AlreadyInQueue).
Proof. split_and!; reflexivity. Qed.

Lemma begin_search_for_user_effect_witness :
  (∀ s : gset Z, elements s ≡ₚ elements s)
  ∧ (let w := after false everyone elements (BeginSearch 1) (startup table_free) in
     let w' := (begin_search_for_user elements 2 w).2 in
     (2 ∉ waiting_users w)
     ∧ first_compatible (user_data (loaded 2 w)) 2 (elements (waiting_users w)) = Some 1
     ∧ 1 ≠ 0
     ∧ 1 ∈ waiting_users w
     ∧ waiting_users w' = waiting_users w ∖ {[1]}
     ∧ chat_partners w' = <[1:=2]> (<[2:=1]> (chat_partners w))
     ∧ 2 ∉ waiting_users w')
  ∧ (let w := after false everyone elements (BeginSearch 1) (startup table_change) in
     let w' := (begin_search_for_user elements 2 w).2 in
     (2 ∉ waiting_users w)
     ∧ (∀ q, q ∈ waiting_users w → q ≠ 2 →
             can_users_chat (user_data (loaded 2 w)) 2 q = false)
     ∧ waiting_users w' = waiting_users w ∪ {[2]}
     ∧ chat_partners w' = chat_partners w).
Proof.
  split; [exact elements_order_perm|]. split; cbv zeta.
  - assert (2 ∉ waiting_users (after false everyone elements (BeginSearch 1)
                                (startup table_free))) as Hu by by_compute.
    assert (first_compatible
              (user_data (loaded 2 (after false everyone elements (BeginSearch 1)
                                      (startup table_free)))) 2
              (elements (waiting_users (after false everyone elements (BeginSearch 1)
                                          (startup table_free)))) = Some 1) as Hc
      by reflexivity.
    assert (1 ≠ 0) as H0 by lia.
    destruct (begin_search_for_user_effect false everyone elements elements_order_perm
                (after false everyone elements (BeginSearch 1) (startup table_free)) 2)
      as (_ & Hout & _).
    destruct (Hout Hu) as (Hfound & _).
    destruct (Hfound 1 Hc H0) as (Hp & _ & _ & Hw & Hr & Hn).
    exact (conj Hu (conj Hc (conj H0 (conj Hp (conj Hw (conj Hr Hn)))))).
  - assert (2 ∉ waiting_users (after false everyone elements (BeginSearch 1)
                                (startup table_change))) as Hu by by_compute.
    assert (∀ q, q ∈ waiting_users (after false everyone elements (BeginSearch 1)
                                      (startup table_change)) → q ≠ 2 →
                 can_users_chat
                   (user_data (loaded 2 (after false everyone elements (BeginSearch 1)
                                           (startup table_change)))) 2 q = false) as Hq.
    { intros q Hq _.
      change (q ∈ ({[1]} : gset Z)) in Hq. apply elem_of_singleton in Hq.
      subst q. reflexivity. }
    destruct (begin_search_for_user_effect false everyone elements elements_order_perm
                (after false everyone elements (BeginSearch 1) (startup table_change)) 2)
      as (_ & Hout & _).
    destruct (Hout Hu) as (_ & _ & Hnone).
    destruct (Hnone Hq) as (_ & Hw & Hr).
    exact (conj Hu (conj Hq (conj Hw Hr))).
Defined.

(** ** Searching without a gender *)

(** C7 fails as stated: with the subscription gate on and not passed, a user
    without gender who starts a search gets the subscription prompt and is
    not asked for a gender. *)
Lemma unsubscribed_user_is_not_asked_for_gender :
  let w := startup table_new in
  let w' := (start_search true nobody elements 5 w).2 in
  truthy (stored_gender w 5) = false
  ∧ outbox w' = [(5, SubscribePrompt)]
  ∧ (5, ChooseGender) ∉ outbox w'.
Proof. split_and!; [reflexivity..|by_compute]. Qed.

Lemma start_search_without_gender_witness :
  truthy (stored_gender (startup table_new) 5) = false
  ∧ outbox (start_search false everyone elements 5 (startup table_new)).2
    = [(5, ChooseGender)].
Proof.
  assert (truthy (stored_gender (startup table_new) 5) = false) as Hg by reflexivity.
  split; [exact Hg|].
  exact (proj2 (proj2 (proj2
    (start_search_without_gender false everyone elements (startup table_new) 5 Hg)))).
Defined.

(** ** Asking for the next partner *)

(** C8 fails on the code: users 1 and 2 are partners and user 2 has pressed
    the search button again, so that user 2 is in the queue as well (the
    search of a paired user that breaks C1).  When user 1 asks for the next
    partner, both entries are deleted and user 2 is told that the partner
    has started a new search; the scan of user 1 then takes user 2 out of
    the queue and connects the two again.  After the handler user 2 is not
    idle, and the entries 1 -> 2 and 2 -> 1 are in the registry. *)
Theorem next_chat_reconnects_queued_partner :
  ∃ w, reachable false everyone elements table_free w
       ∧ chat_partners w !! 1 = Some 2 ∧ chat_partners w !! 2 = Some 1
       ∧ 2 ∈ waiting_users w
       ∧ let w' := after false everyone elements (NextSession 1) w in
         (next_chat elements 1 w).1 = Ok tt
         ∧ chat_partners w' !! 1 = Some 2 ∧ chat_partners w' !! 2 = Some 1
         ∧ waiting_users w' = ∅
         ∧ outbox w' = outbox w ++
             [(1, LookingForNewPartner); (2, PartnerStartedNewSearch);
              (2, MainMenu); (1, SearchStarted); (1, SearchingStopButton);
              (1, PartnerFound); (2, PartnerFound)].
Proof.
  exists (run false everyone elements
            [BeginSearch 1; BeginSearch 2; BeginSearch 2] (startup table_free)).
  split_and!.
  - cbn [run foldl]. do 3 apply reachable_after. apply reachable_startup.
  - reflexivity.
  - reflexivity.
  - by_compute.
  - cbv zeta. split_and!; reflexivity.
Qed.

Lemma next_chat_of_paired_couple_witness :
  chat_partners paired_and_waiting !! 1 = Some 2
  ∧ chat_partners paired_and_waiting !! 2 = Some 1
  ∧ 1 ≠ 2
  ∧ (2 ∉ waiting_users paired_and_waiting)
  ∧ (next_chat elements 1 paired_and_waiting).1 = Ok tt
  ∧ chat_partners (next_chat elements 1 paired_and_waiting).2 !! 2 = None
  ∧ 2 ∉ waiting_users (next_chat elements 1 paired_and_waiting).2.
Proof.
  assert (chat_partners paired_and_waiting !! 1 = Some 2) as H1 by reflexivity.
  assert (chat_partners paired_and_waiting !! 2 = Some 1) as H2 by reflexivity.
  assert (1 ≠ 2) as H3 by lia.
  assert (2 ∉ waiting_users paired_and_waiting) as H4 by by_compute.
  destruct (next_chat_of_paired_couple elements elements_order_perm
              paired_and_waiting 1 2 H1 H2 H3 H4)
    as (_ & _ & Hok & [Hp Hq] & _).
  exact (conj H1 (conj H2 (conj H3 (conj H4 (conj Hok (conj Hp Hq)))))).
Defined.

(** ** Commands that find nothing to do *)

Lemma stop_and_next_without_partner_witness :
  chat_partners (startup table_free) !! 3 = None
  ∧ outbox (stop_chat 3 (startup table_free)).2 = [(3, NoActiveDialog); (3, MainMenu)]
  ∧ outbox (next_chat elements 3 (startup table_free)).2 = [(3, NoActiveDialog)].
Proof.
  assert (chat_partners (startup table_free) !! 3 = None) as H by reflexivity.
  destruct (stop_and_next_without_partner elements (startup table_free) 3 H)
    as [(_ & _ & _ & Hs) (_ & _ & _ & Hn)].
  exact (conj H (conj Hs Hn)).
Defined.

Lemma stop_search_when_not_searching_witness :
  (3 ∉ waiting_users paired_and_waiting ∖ {[3]})
  ∧ chat_partners (stop_search 3 (dequeued 3 paired_and_waiting)).2
    = chat_partners paired_and_waiting.
Proof.
  assert (3 ∉ waiting_users (dequeued 3 paired_and_waiting)) as H by by_compute.
  destruct (stop_search_when_not_searching (dequeued 3 paired_and_waiting) 3 H)
    as (_ & _ & Hc & _).
  exact (conj H Hc).
Defined.

(** ** The policy *)

Lemma can_users_chat_policy_witness :
  let ud := cache_of_row <$> table_picky in
  ud !! 1 = Some (cache_of_row boy_wants_girl)
  ∧ ud !! 2 = Some (cache_of_row girl)
  ∧ search_gender (cache_of_row boy_wants_girl) ≠ ""%string
  ∧ search_gender (cache_of_row girl) ≠ ""%string
  ∧ can_users_chat ud 1 2 = can_users_chat ud 2 1.
Proof.
  assert ((cache_of_row <$> table_picky) !! 1 = Some (cache_of_row boy_wants_girl))
    as H1 by reflexivity.
  assert ((cache_of_row <$> table_picky) !! 2 = Some (cache_of_row girl))
    as H2 by reflexivity.
  assert (search_gender (cache_of_row boy_wants_girl) ≠ ""%string) as H3 by discriminate.
  assert (search_gender (cache_of_row girl) ≠ ""%string) as H4 by discriminate.
  destruct (can_users_chat_policy _ 1 2 _ _ H1 H2 H3 H4) as (_ & _ & Hsym).
  exact (conj H1 (conj H2 (conj H3 (conj H4 Hsym)))).
Defined.

(** ** Scenarios *)

(** First scenario of the specification: A searches and waits, B searches
    and both are connected; A learns about it through B's action. *)
Example scenario_two_users_are_paired :
  let w1 := after false everyone elements (BeginSearch 1) (startup table_free) in
  let w2 := after false everyone elements (BeginSearch 2) w1 in
  waiting_users w1 = {[1]} ∧ chat_partners w1 = ∅
  ∧ waiting_users w2 = ∅
  ∧ chat_partners w2 = <[1:=2]> (<[2:=1]> ∅)
  ∧ outbox w2 = outbox w1 ++ [(2, SearchStarted); (2, SearchingStopButton);
                              (2, PartnerFound); (1, PartnerFound)].
Proof. split_and!; reflexivity. Qed.

(** Third scenario: a premium boy looking for girls waits; a boy who
    searches next does not match and waits as well. *)
Example scenario_preference_blocks_match :
  let w := run false everyone elements [BeginSearch 1; BeginSearch 2]
             (startup table_change) in
  can_users_chat (user_data w) 2 1 = false
  ∧ waiting_users w = {[1; 2]} ∧ chat_partners w = ∅.
Proof. split_and!; reflexivity. Qed.

(** Fourth scenario: after [next_chat] of user 1 its partner 2 is free and
    not queued, and user 1 is connected to the waiting user 3. *)
Example scenario_next_finds_new_partner :
  let w' := after false everyone elements (NextSession 1) paired_and_waiting in
  chat_partners w' = <[1:=3]> (<[3:=1]> ∅) ∧ waiting_users w' = ∅
  ∧ outbox w' = [(1, LookingForNewPartner); (2, PartnerStartedNewSearch);
                 (2, MainMenu); (1, SearchStarted); (1, SearchingStopButton);
                 (1, PartnerFound); (3, PartnerFound)].
Proof. split_and!; reflexivity. Qed.

(** The test [if partner_id:] takes the candidate 0 for no candidate: user 0
    is removed from the queue by the scan, nobody is connected, and the
    requester is queued. *)
Example candidate_zero_is_dropped :
  let w := after false everyone elements (BeginSearch 0) (startup table_zero) in
  let w' := after false everyone elements (BeginSearch 5) w in
  waiting_users w = {[0]}
  ∧ (find_partner_for_user elements 5 w).1 = Ok (Some 0)
  ∧ waiting_users w' = {[5]} ∧ chat_partners w' = ∅.
Proof. split_and!; reflexivity. Qed.

(** ** Instances of the further properties *)

(** Users 1 and 2 have searched one after the other and are partners. *)
Lemma pair_reachable_unpaired :
  reachable_unpaired false everyone elements table_free
    (run false everyone elements [BeginSearch 1; BeginSearch 2] (startup table_free)).
Proof.
  cbn [run foldl].
  apply reachable_unpaired_after;
    [apply reachable_unpaired_after; [apply reachable_unpaired_startup|]|];
    intros u [= <-]; reflexivity.
Qed.

Lemma pair_reachable_by_actions :
  reachable_by_actions false everyone elements table_free
    (run false everyone elements [BeginSearch 1; BeginSearch 2] (startup table_free)).
Proof.
  cbn [run foldl].
  apply (reachable_by_actions_perform _ _ _ _ (Command (BeginSearch 2))).
  apply (reachable_by_actions_perform _ _ _ _ (Command (BeginSearch 1))).
  apply reachable_by_actions_startup.
Qed.

Lemma stop_chat_of_paired_couple_witness :
  chat_partners paired_and_waiting !! 1 = Some 2
  ∧ chat_partners paired_and_waiting !! 2 = Some 1
  ∧ 1 ≠ 2
  ∧ (stop_chat 1 paired_and_waiting).1 = Ok tt
  ∧ chat_partners (stop_chat 1 paired_and_waiting).2 !! 1 = None
  ∧ chat_partners (stop_chat 1 paired_and_waiting).2 !! 2 = None.
Proof.
  assert (chat_partners paired_and_waiting !! 1 = Some 2) as H1 by reflexivity.
  assert (chat_partners paired_and_waiting !! 2 = Some 1) as H2 by reflexivity.
  assert (1 ≠ 2) as H3 by lia.
  destruct (stop_chat_of_paired_couple paired_and_waiting 1 2 H1 H2 H3)
    as (Hok & Hu & Hp & _).
  exact (conj H1 (conj H2 (conj H3 (conj Hok (conj Hu Hp))))).
Defined.

Lemma dangling_partner_raises_key_error_witness :
  let w := with_chat_partners (delete 2) paired_and_waiting in
  chat_partners w !! 1 = Some 2
  ∧ (2 = 1 ∨ chat_partners w !! 2 = None)
  ∧ (stop_chat 1 w).1 = Raised (KeyError 2)
  ∧ (next_chat elements 1 w).1 = Raised (KeyError 2).
Proof.
  cbv zeta.
  assert (chat_partners (with_chat_partners (delete 2) paired_and_waiting) !! 1
          = Some 2) as H1 by reflexivity.
  assert (2 = 1 ∨ chat_partners (with_chat_partners (delete 2) paired_and_waiting) !! 2
                  = None) as H2 by (right; reflexivity).
  destruct (dangling_partner_raises_key_error elements _ 1 2 H1 H2)
    as [(Hs & _) (Hn & _)].
  exact (conj H1 (conj H2 (conj Hs Hn))).
Defined.

Lemma every_command_answers_its_caller_witness :
  (∀ s : gset Z, elements s ≡ₚ elements s)
  ∧ ∃ n rest,
      outbox (after false everyone elements (NextSession 1) paired_and_waiting)
      = outbox paired_and_waiting ++ (1, n) :: rest.
Proof.
  split; [exact elements_order_perm|].
  exact (every_command_answers_its_caller false everyone elements elements_order_perm
           (NextSession 1) paired_and_waiting).
Defined.

Lemma commands_only_move_their_caller_witness :
  (∀ s : gset Z, elements s ≡ₚ elements s)
  ∧ ∀ v, v ∈ waiting_users (after false everyone elements (BeginSearch 1)
                              (startup table_free)) →
         v ∈ waiting_users (startup table_free)
         ∨ (v = 1 ∧ (BeginSearch 1 = BeginSearch v ∨ BeginSearch 1 = NextSession v)
            ∧ truthy (stored_gender (startup table_free) v) = true).
Proof.
  split; [exact elements_order_perm|].
  exact (proj1 (commands_only_move_their_caller false everyone elements
                  elements_order_perm (BeginSearch 1) (startup table_free))).
Defined.

Lemma premium_toggle_keeps_preference_witness :
  users (startup table_picky) !! 1 = Some boy_wants_girl
  ∧ _user_preference
      (user_data (set_premium_status 1 true
                    (set_premium_status 1 false (startup table_picky)).2).2) 1
    = or_default (row_search_gender boy_wants_girl).
Proof.
  assert (users (startup table_picky) !! 1 = Some boy_wants_girl) as H by reflexivity.
  destruct (premium_toggle_keeps_preference (startup table_picky) 1 boy_wants_girl H)
    as (_ & H2 & _).
  exact (conj H H2).
Defined.

Lemma cache_mirrors_table_witness :
  (∀ s : gset Z, elements s ≡ₚ elements s)
  ∧ cache_synced
      (run false everyone elements [BeginSearch 1; BeginSearch 2] (startup table_free)).
Proof.
  split; [exact elements_order_perm|].
  exact (proj1 (cache_mirrors_table false everyone elements elements_order_perm
                  table_free _ pair_reachable_by_actions)).
Defined.

Lemma queued_and_paired_users_have_gender_witness :
  (∀ s : gset Z, elements s ≡ₚ elements s)
  ∧ let w := run false everyone elements [BeginSearch 1; BeginSearch 2]
               (startup table_free) in
    (1 ∈ waiting_users w ∨ is_Some (chat_partners w !! 1))
    ∧ truthy (_user_gender (user_data w) 1) = true.
Proof.
  split; [exact elements_order_perm|]. cbv zeta.
  assert (1 ∈ waiting_users (run false everyone elements [BeginSearch 1; BeginSearch 2]
                              (startup table_free))
          ∨ is_Some (chat_partners (run false everyone elements
                                      [BeginSearch 1; BeginSearch 2]
                                      (startup table_free)) !! 1)) as H
    by (right; exists 2; reflexivity).
  exact (conj H (proj1 (queued_and_paired_users_have_gender false everyone elements
                          elements_order_perm table_free _ 1
                          pair_reachable_by_actions H))).
Defined.

Lemma next_chat_always_searches_witness :
  (∀ s : gset Z, elements s ≡ₚ elements s)
  ∧ let w := run false everyone elements [BeginSearch 1; BeginSearch 2]
               (startup table_free) in
    chat_partners w !! 1 = Some 2 ∧ is_Some (chat_partners w !! 2) ∧ 1 ≠ 2
    ∧ next_chat elements 1 w
      = begin_search_for_user elements 1 (parted 1 2 (loaded 1 w)).
Proof.
  split; [exact elements_order_perm|]. cbv zeta.
  assert (chat_partners (run false everyone elements [BeginSearch 1; BeginSearch 2]
                           (startup table_free)) !! 1 = Some 2) as H1 by reflexivity.
  assert (is_Some (chat_partners (run false everyone elements
                                    [BeginSearch 1; BeginSearch 2]
                                    (startup table_free)) !! 2)) as H2
    by (exists 1; reflexivity).
  assert (1 ≠ 2) as H3 by lia.
  exact (conj H1 (conj H2 (conj H3
           (next_chat_always_searches false everyone elements elements_order_perm
              table_free _ 1 2 pair_reachable_by_actions H1 H2 H3)))).
Defined.

Lemma nobody_is_paired_with_itself_witness :
  (∀ s : gset Z, elements s ≡ₚ elements s)
  ∧ irreflexive
      (chat_partners (run false everyone elements [BeginSearch 1; BeginSearch 2]
                        (startup table_free))).
Proof.
  split; [exact elements_order_perm|].
  exact (nobody_is_paired_with_itself false everyone elements elements_order_perm
           table_free _ pair_reachable_by_actions).
Defined.

Lemma new_pairs_respect_preferences_witness :
  (∀ s : gset Z, elements s ≡ₚ elements s)
  ∧ let w := after false everyone elements (BeginSearch 1) (startup table_free) in
    let w' := after false everyone elements (BeginSearch 2) w in
    chat_partners w' !! 2 = Some 1
    ∧ chat_partners w !! 2 ≠ Some 1
    ∧ can_users_chat (user_data w') 2 1 = true.
Proof.
  split; [exact elements_order_perm|]. cbv zeta.
  assert (chat_partners
            (after false everyone elements (BeginSearch 2)
               (after false everyone elements (BeginSearch 1) (startup table_free)))
          !! 2 = Some 1) as H1 by reflexivity.
  assert (chat_partners
            (after false everyone elements (BeginSearch 1) (startup table_free))
          !! 2 ≠ Some 1) as H2 by by_compute.
  exact (conj H1 (conj H2 (proj1
           (new_pairs_respect_preferences false everyone elements elements_order_perm
              (BeginSearch 2) _ 2 1 H1 H2)))).
Defined.

Lemma waiting_users_are_incompatible_witness :
  (∀ s : gset Z, elements s ≡ₚ elements s)
  ∧ let w := run false everyone elements [BeginSearch 1; BeginSearch 2]
               (startup table_change) in
    1 ∈ waiting_users w ∧ 2 ∈ waiting_users w ∧ 1 ≠ 2
    ∧ can_users_chat (user_data w) 1 2 = false.
Proof.
  split; [exact elements_order_perm|]. cbv zeta.
  assert (reachable_nonzero false everyone elements table_change
            (run false everyone elements [BeginSearch 1; BeginSearch 2]
               (startup table_change))) as Hr.
  { cbn [run foldl].
    apply reachable_nonzero_after;
      [apply reachable_nonzero_after; [apply reachable_nonzero_startup|]|];
      simpl; lia. }
  assert (1 ∈ waiting_users (run false everyone elements [BeginSearch 1; BeginSearch 2]
                              (startup table_change))) as H1 by by_compute.
  assert (2 ∈ waiting_users (run false everyone elements [BeginSearch 1; BeginSearch 2]
                              (startup table_change))) as H2 by by_compute.
  assert (1 ≠ 2) as H3 by lia.
  exact (conj H1 (conj H2 (conj H3
           (waiting_users_are_incompatible false everyone elements elements_order_perm
              table_change _ 1 2 Hr H1 H2 H3)))).
Defined.

Lemma stats_count_pairs_exactly_witness :
  let w := run false everyone elements [BeginSearch 1; BeginSearch 2]
             (startup table_free) in
  consistent w ∧ Z.of_nat (size (chat_partners w)) = 2 * stats_active_pairs w.
Proof.
  cbv zeta.
  assert (consistent (run false everyone elements [BeginSearch 1; BeginSearch 2]
                        (startup table_free))) as Hc.
  { exact (reachable_unpaired_consistent false everyone elements elements_order_perm
             table_free _ pair_reachable_unpaired). }
  exact (conj Hc (proj1 (stats_count_pairs_exactly _ Hc))).
Defined.

Lemma ban_user_blocks_start_witness :
  let s := bot_of (startup table_free) in
  let s' := (ban_user 1 "spam" "2024-01-01T00:00:00" s).2 in
  is_Some (users (globals s) !! 1)
  ∧ (is_banned 1 s').1 = Ok true
  ∧ log (start false everyone "" 1 s').2 = [SentReply 1 Blocked].
Proof.
  cbv zeta.
  assert (is_Some (users (globals (bot_of (startup table_free))) !! 1)) as H
    by (exists boy; reflexivity).
  destruct (ban_user_blocks_start false everyone "" (bot_of (startup table_free)) 1
              "spam" "2024-01-01T00:00:00" H) as (Hb & _ & Hs & _).
  split; [exact H|]. split; [exact Hb|].
  exact (f_equal (λ r : result unit * bot, log r.2) Hs).
Defined.

Lemma ban_of_unknown_user_is_lost_witness :
  let s := bot_of (startup table_free) in
  let s1 := (ban_user 9 "spam" "2024-01-01T00:00:00" s).2 in
  banned_of_rows s ∧ users (globals s) !! 9 = None
  ∧ (is_banned 9 s1).1 = Ok false
  ∧ (is_banned 9 (start false everyone "" 9 s1).2).1 = Ok false
  ∧ bans (start false everyone "" 9 s1).2 !! 9 = Some ("spam", "2024-01-01T00:00:00").
Proof.
  cbv zeta.
  assert (banned_of_rows (bot_of (startup table_free))) as Hb.
  { intros u [x Hx]. simpl in Hx. rewrite lookup_empty in Hx. discriminate. }
  assert (users (globals (bot_of (startup table_free))) !! 9 = None) as Hu
    by reflexivity.
  destruct (ban_of_unknown_user_is_lost false everyone "" (bot_of (startup table_free))
              9 "spam" "2024-01-01T00:00:00" Hb Hu) as (H1 & _ & _ & _ & H2 & H3).
  exact (conj Hb (conj Hu (conj H1 (conj H2 H3)))).
Defined.

Lemma forward_message_relays_to_partner_witness :
  let s := bot_of paired_and_waiting in
  let m := Message 1 77 (Some "hello") in
  check_subscription false everyone (chat_id m) = true
  ∧ user_states s !! chat_id m = None
  ∧ plain_text (text m) = false
  ∧ chat_partners (globals s) !! chat_id m = Some 2
  ∧ (forward_message false everyone plain_text m s).1 = Ok tt
  ∧ log (forward_message false everyone plain_text m s).2 = [Copied 2 1 77].
Proof.
  cbv zeta.
  assert (check_subscription false everyone (chat_id (Message 1 77 (Some "hello")))
          = true) as H1 by reflexivity.
  assert (user_states (bot_of paired_and_waiting)
          !! chat_id (Message 1 77 (Some "hello")) = None) as H2 by reflexivity.
  assert (plain_text (text (Message 1 77 (Some "hello"))) = false) as H3
    by reflexivity.
  assert (chat_partners (globals (bot_of paired_and_waiting))
          !! chat_id (Message 1 77 (Some "hello")) = Some 2) as H4 by reflexivity.
  destruct (forward_message_relays_to_partner false everyone plain_text
              (Message 1 77 (Some "hello")) (bot_of paired_and_waiting) 2
              H1 H2 H3 H4) as [Hf _].
  split_and!; try assumption.
  - exact (f_equal fst Hf).
  - exact (f_equal (λ r : result unit * bot, log r.2) Hf).
Defined.

Lemma forward_message_copies_only_to_partner_witness :
  let s := bot_of paired_and_waiting in
  let m := Message 1 77 (Some "hello") in
  Copied 2 1 77 ∈ log (forward_message false everyone plain_text m s).2
  ∧ (Copied 2 1 77 ∈ log s
     ∨ (1 = chat_id m ∧ 77 = message_id m
        ∧ chat_partners (globals s) !! 1 = Some 2
        ∧ check_subscription false everyone 1 = true
        ∧ user_states s !! 1 = None
        ∧ plain_text (text m) = false)).
Proof.
  cbv zeta.
  assert (Copied 2 1 77
          ∈ log (forward_message false everyone plain_text
                   (Message 1 77 (Some "hello")) (bot_of paired_and_waiting)).2) as H.
  { change (Copied 2 1 77 ∈ [Copied 2 1 77]). apply list_elem_of_singleton.
    reflexivity. }
  exact (conj H (forward_message_copies_only_to_partner false everyone plain_text
                   (Message 1 77 (Some "hello")) (bot_of paired_and_waiting)
                   2 1 77 H)).
Defined.

Lemma informational_handlers_keep_queue_and_registry_witness :
  let s := bot_of paired_and_waiting in
  start false everyone "" 1
    ∈ [start false everyone "" 1;
       forward_message false everyone plain_text (Message 1 77 None);
       premium_search false everyone 1; show_premium_settings 1]
  ∧ waiting_users (globals (start false everyone "" 1 s).2) = waiting_users (globals s)
  ∧ chat_partners (globals (start false everyone "" 1 s).2) = chat_partners (globals s).
Proof.
  cbv zeta.
  assert (start false everyone "" 1
          ∈ [start false everyone "" 1;
             forward_message false everyone plain_text (Message 1 77 None);
             premium_search false everyone 1; show_premium_settings 1]) as H.
  { apply elem_of_cons. left. reflexivity. }
  destruct (informational_handlers_keep_queue_and_registry false everyone ""
              (bot_of paired_and_waiting) 1 plain_text (Message 1 77 None) _ H)
    as (Hq & Hp & _).
  exact (conj H (conj Hq Hp)).
Defined.

Lemma gender_choice_is_stored_witness :
  (∀ s : gset Z, elements s ≡ₚ elements s)
  ∧ let c := Call 7 5 "gender_boy" 5 in
    let s := bot_of (startup table_new) in
    data c = (if true then "gender_boy" else "gender_girl")%string
    ∧ (callback_query false everyone idle c s).1 = Ok tt
    ∧ gender <$> user_data (globals (callback_query false everyone idle c s).2) !! 5
      = Some (Some GENDER_BOY).
Proof.
  split; [exact elements_order_perm|]. cbv zeta.
  assert (data (Call 7 5 "gender_boy" 5)
          = (if true then "gender_boy" else "gender_girl")%string) as H by reflexivity.
  destruct (gender_choice_is_stored false everyone elements elements_order_perm idle
              (Call 7 5 "gender_boy" 5) (bot_of (startup table_new)) true H)
    as (Hok & _ & Hg & _).
  exact (conj H (conj Hok Hg)).
Defined.

Lemma search_preference_needs_premium_witness :
  let c := Call 7 1 "search_gender_male" 1 in
  let s := bot_of (startup table_picky) in
  (data c, GENDER_BOY) ∈ search_gender_targets
  ∧ user_data (loaded (from_user_id c) (globals s)) !! from_user_id c
    = Some (cache_of_row boy_wants_girl)
  ∧ (callback_query false everyone idle c s).1 = Ok tt
  ∧ waiting_users (globals (callback_query false everyone idle c s).2)
    = waiting_users (globals s).
Proof.
  cbv zeta.
  assert ((data (Call 7 1 "search_gender_male" 1), GENDER_BOY) ∈ search_gender_targets)
    as H1.
  { unfold search_gender_targets. apply elem_of_cons. right.
    apply elem_of_cons. left. reflexivity. }
  assert (user_data (loaded (from_user_id (Call 7 1 "search_gender_male" 1))
                       (globals (bot_of (startup table_picky))))
          !! from_user_id (Call 7 1 "search_gender_male" 1)
          = Some (cache_of_row boy_wants_girl)) as H2 by reflexivity.
  destruct (search_preference_needs_premium false everyone idle
              (Call 7 1 "search_gender_male" 1) (bot_of (startup table_picky))
              GENDER_BOY (cache_of_row boy_wants_girl) H1 H2) as (Hok & Hq & _).
  exact (conj H1 (conj H2 (conj Hok Hq))).
Defined.

Lemma unpaired_searches_keep_the_registry_sound_witness :
  (∀ s : gset Z, elements s ≡ₚ elements s)
  ∧ let w := run false everyone elements [BeginSearch 1; BeginSearch 2]
               (startup table_free) in
    reachable_unpaired false everyone elements table_free w
    ∧ symmetric (chat_partners w)
    ∧ (handle false everyone elements (StopSession 1) w).1 = Ok tt.
Proof.
  split; [exact elements_order_perm|]. cbv zeta.
  destruct (unpaired_searches_keep_the_registry_sound false everyone elements
              elements_order_perm table_free _ pair_reachable_unpaired)
    as (_ & Hs & _ & Hok).
  exact (conj pair_reachable_unpaired (conj Hs (Hok (StopSession 1)))).
Defined.
